(** * chatkit-client-js: the session object, the cursor store and the parsers

    A shallow embedding of [src/parsers.js], [src/cursor-store.js] and the
    parts of [src/current-user.js] that read cursors, send messages, filter
    cursor events and bootstrap the user store.

    JavaScript values are a small dynamic [value] type; synchronous code
    returns a [completion] (a value or a thrown error); promise-returning
    code returns an [outcome] (resolved, rejected or still pending) together
    with the world it leaves behind.  The world holds the stores and the
    trace of everything observable from outside: requests handed to the
    transport, log lines and calls of the caller's hooks. *)

From Stdlib Require Import ZArith String Ascii List Bool Lia.
From stdpp Require Import base option list gmap strings pretty.
Import ListNotations.

(* ===================================================================== *)
(** ** JavaScript values *)
(* ===================================================================== *)

Module JS.

(** Decoded payloads and everything else the code passes around.  Numbers
    are the integers the API uses (ids, positions, the cursor type); objects
    are association lists read at their first binding of a key; [VCursor] is
    an instance of the [Cursor] class built over a basic cursor. *)
#[local] Set Warnings "-register-all".
Inductive value : Type :=
| VUndefined
| VNull
| VBool (b : bool)
| VNum (n : Z)
| VStr (s : string)
| VArr (xs : list value)
| VObj (fields : list (string * value))
| VCursor (basic : value).

Inductive error : Type :=
| TypeError (msg : string)
| OtherError (reason : value).

(** What a synchronous call does. *)
Inductive completion (A : Type) : Type :=
| Returned (a : A)
| Thrown (e : error).
Arguments Returned {A} a.
Arguments Thrown {A} e.

Definition cbind {A B} (c : completion A) (k : A -> completion B) : completion B :=
  match c with
  | Returned a => k a
  | Thrown e => Thrown e
  end.

Notation "'let!' x ':=' c 'in' k" := (cbind c (fun x => k))
  (at level 10, x name, c at level 100, k at level 200).

(** [typeof v]. *)
Definition typeof (v : value) : string :=
  match v with
  | VUndefined => "undefined"
  | VNull => "object"
  | VBool _ => "boolean"
  | VNum _ => "number"
  | VStr _ => "string"
  | VArr _ | VObj _ | VCursor _ => "object"
  end.

(** Truthiness, as tested by [||], [&&], [?:] and [if]. *)
Definition truthy (v : value) : bool :=
  match v with
  | VUndefined | VNull => false
  | VBool b => b
  | VNum n => negb (n =? 0)%Z
  | VStr s => negb (String.eqb s "")
  | VArr _ | VObj _ | VCursor _ => true
  end.

Fixpoint field (k : string) (fs : list (string * value)) : option value :=
  match fs with
  | [] => None
  | (k', v) :: fs' => if String.eqb k k' then Some v else field k fs'
  end.

Definition field_or_undefined (k : string) (fs : list (string * value)) : value :=
  match field k fs with
  | Some v => v
  | None => VUndefined
  end.

(** Modelled from the spec: the [Cursor] class of the missing
    [src/cursor.js].  A decorated cursor carries the data of its basic
    cursor (position, updated timestamp, user id, room id, type); its live
    [user] and [room] lookups are not modelled. *)
Definition cursor_fields : list string :=
  ["position"; "updatedAt"; "userId"; "roomId"; "type"].

Definition is_cursor_field (k : string) : bool :=
  existsb (String.eqb k) cursor_fields.

(** [v[k]] where reading is defined: an absent property is [undefined].
    None of the property names read in this development is a built-in
    property of a string, a number, a boolean or an array. *)
Definition member (v : value) (k : string) : value :=
  match v with
  | VObj fs => field_or_undefined k fs
  | VCursor (VObj fs) => if is_cursor_field k then field_or_undefined k fs else VUndefined
  | _ => VUndefined
  end.

(** [v.k]: reading a property of [undefined] or [null] throws. *)
Definition get_prop (v : value) (k : string) : completion value :=
  match v with
  | VUndefined => Thrown (TypeError ("Cannot read property '" +:+ k +:+ "' of undefined"))
  | VNull => Thrown (TypeError ("Cannot read property '" +:+ k +:+ "' of null"))
  | _ => Returned (member v k)
  end.

(** [a === b].  Objects and arrays compare by identity, which the value
    type does not carry; every use below has a primitive on one side. *)
Definition strict_eq (a b : value) : bool :=
  match a, b with
  | VUndefined, VUndefined => true
  | VNull, VNull => true
  | VBool x, VBool y => Bool.eqb x y
  | VNum x, VNum y => (x =? y)%Z
  | VStr x, VStr y => String.eqb x y
  | _, _ => false
  end.

(** ramda's [equals]: structural, objects compared key by key whatever the
    order of their keys. *)
Fixpoint equals (a b : value) {struct a} : bool :=
  match a, b with
  | VUndefined, VUndefined => true
  | VNull, VNull => true
  | VBool x, VBool y => Bool.eqb x y
  | VNum x, VNum y => (x =? y)%Z
  | VStr x, VStr y => String.eqb x y
  | VArr xs, VArr ys =>
      (fix go (xs ys : list value) {struct xs} : bool :=
         match xs, ys with
         | [], [] => true
         | x :: xs', y :: ys' => equals x y && go xs' ys'
         | _, _ => false
         end) xs ys
  | VObj fs, VObj gs =>
      Nat.eqb (length fs) (length gs) &&
      (fix go (fs : list (string * value)) {struct fs} : bool :=
         match fs with
         | [] => true
         | (k, v) :: fs' =>
             match field k gs with
             | Some w => equals v w
             | None => false
             end && go fs'
         end) fs
  | VCursor x, VCursor y => equals x y
  | _, _ => false
  end.

(** ramda's [contains(x, list)]. *)
Definition contains (x : value) (l : list value) : bool :=
  existsb (fun y => equals y x) l.

(** The string a template literal substitutes for a value.  Integers print
    in decimal. *)
Fixpoint to_string (v : value) : string :=
  match v with
  | VUndefined => "undefined"
  | VNull => "null"
  | VBool true => "true"
  | VBool false => "false"
  | VNum n => pretty n
  | VStr s => s
  | VArr xs =>
      (fix join (xs : list value) : string :=
         match xs with
         | [] => ""
         | [x] => match x with VUndefined | VNull => "" | _ => to_string x end
         | x :: xs' =>
             match x with VUndefined | VNull => "" | _ => to_string x end
             +:+ "," +:+ join xs'
         end) xs
  | VObj _ | VCursor _ => "[object Object]"
  end.

End JS.
Export JS.

(* ===================================================================== *)
(** ** parsers.js *)
(* ===================================================================== *)

Module Parsers.

Definition parseBasicRoom (data : value) : completion value :=
  let! created_at := get_prop data "created_at" in
  let! created_by_id := get_prop data "created_by_id" in
  let! deletedAt := get_prop data "deletedAt" in
  let! id := get_prop data "id" in
  let! private := get_prop data "private" in
  let! name := get_prop data "name" in
  let! updated_at := get_prop data "updated_at" in
  let! member_user_ids := get_prop data "member_user_ids" in
  Returned (VObj [
    ("createdAt", created_at);
    ("createdByUserId", created_by_id);
    ("deletedAt", deletedAt);
    ("id", id);
    ("isPrivate", private);
    ("name", name);
    ("updatedAt", updated_at);
    ("userIds", member_user_ids)
  ]).

Definition parseUser (data : value) : completion value :=
  let! avatar_url := get_prop data "avatar_url" in
  let! created_at := get_prop data "created_at" in
  let! custom_data := get_prop data "custom_data" in
  let! id := get_prop data "id" in
  let! name := get_prop data "name" in
  let! updated_at := get_prop data "updated_at" in
  Returned (VObj [
    ("avatarURL", avatar_url);
    ("createdAt", created_at);
    ("customData", custom_data);
    ("id", id);
    ("name", name);
    ("updatedAt", updated_at)
  ]).

Definition parsePresence (data : value) : completion value :=
  let! last_seen_at := get_prop data "last_seen_at" in
  let! state := get_prop data "state" in
  let! state' := get_prop data "state" in
  let! user_id := get_prop data "user_id" in
  Returned (VObj [
    ("lastSeenAt", last_seen_at);
    ("state", if contains state [VStr "online"; VStr "offline"]
              then state' else VStr "unknown");
    ("userId", user_id)
  ]).

Definition parseBasicMessage (data : value) : completion value :=
  let! id := get_prop data "id" in
  let! user_id := get_prop data "user_id" in
  let! room_id := get_prop data "room_id" in
  let! text := get_prop data "text" in
  let! created_at := get_prop data "created_at" in
  let! updated_at := get_prop data "updated_at" in
  Returned (VObj [
    ("id", id);
    ("senderId", user_id);
    ("roomId", room_id);
    ("text", text);
    ("createdAt", created_at);
    ("updatedAt", updated_at)
  ]).

End Parsers.

(* ===================================================================== *)
(** ** Promises, the transport and the trace *)
(* ===================================================================== *)

Module Effects.

(** The state of a promise at the end of a run: [Pending] is a promise that
    waits for something the run does not provide. *)
Inductive outcome (A : Type) : Type :=
| Resolved (a : A)
| Rejected (e : error)
| Pending.
Arguments Resolved {A} a.
Arguments Rejected {A} e.
Arguments Pending {A}.

Inductive instance : Type :=
| ApiInstance
| CursorsInstance
| FilesInstance
| PresenceInstance.

(** The options object handed to [instance.request]; [req_body] holds the
    entries appended to a [FormData] (field, value, file name). *)
Record request : Type := {
  req_instance : instance;
  req_method : string;
  req_path : string;
  req_json : option value;
  req_body : option (list (string * value * value))
}.

Inductive level : Type := Warn | Error.

Inductive log_arg : Type :=
| LogStr (s : string)
| LogErr (e : error).

(** A caller-supplied hook function, known by a name of its own. *)
Definition callback : Type := nat.

(** Everything that leaves the session. *)
Inductive event : Type :=
| Sent (r : request)
| Logged (l : level) (args : list log_arg)
| HookCalled (f : callback) (arg : value).

Definition is_sent (e : event) : bool :=
  match e with
  | Sent _ => true
  | _ => false
  end.

(** The requests of a trace, in order: the network interaction. *)
Definition sent (t : list event) : list event := filter (fun e => is_sent e = true) t.

End Effects.
Export Effects.

(* ===================================================================== *)
(** ** store.js *)
(* ===================================================================== *)

Module Store.

(** Modelled from the spec: [src/store.js] is missing.  A store holds an
    internal mapping and a pending-initialization signal. *)
Record t : Type := {
  entries : gmap string value;
  initialized : bool
}.

(** Modelled from the spec: [new Store()] of the missing [src/store.js]. *)
Definition empty : t := {| entries := ∅; initialized := false |}.

(** Modelled from the spec: [Store.initialize] of the missing
    [src/store.js] merges the entries whose key is not already present and
    signals "initialized". *)
Definition initialize (initial : gmap string value) (s : t) : t :=
  {| entries := entries s ∪ initial; initialized := true |}.

(** Modelled from the spec: [Store.set] of the missing [src/store.js]
    unconditionally overwrites. *)
Definition set (k : string) (v : value) (s : t) : t :=
  {| entries := <[k := v]> (entries s); initialized := initialized s |}.

(** Modelled from the spec: [Store.getSync] of the missing [src/store.js]
    returns the current value or [undefined], without waiting. *)
Definition getSync (k : string) (s : t) : value :=
  match entries s !! k with
  | Some v => v
  | None => VUndefined
  end.

(** Modelled from the spec: [Store.get] of the missing [src/store.js] waits
    for the first initialization, then returns [getSync]. *)
Definition get (k : string) (s : t) : outcome value :=
  if initialized s then Resolved (getSync k s) else Pending.

(** Modelled from the spec: [Store.snapshot] of the missing [src/store.js]
    returns the full current mapping. *)
Definition snapshot (s : t) : gmap string value := entries s.

End Store.

(* ===================================================================== *)
(** ** The session's state and its collaborators *)
(* ===================================================================== *)

Module Session.

(** The hooks object a caller passes to a subscription. *)
Record hooks : Type := {
  onNewReadCursor : option callback
}.

(** The state a [CurrentUser] owns: its id, its stores (the room store by
    its snapshot of room objects), its room subscriptions keyed by room id,
    and the trace of what it has sent, logged and called so far. *)
Record world : Type := {
  id : string;
  cursorStore : Store.t;
  userStore : Store.t;
  roomStore : gmap string (list (string * value));
  roomSubscriptions : gmap string hooks;
  trace : list event
}.

Definition with_cursorStore (s : Store.t) (w : world) : world :=
  {| id := id w; cursorStore := s; userStore := userStore w;
     roomStore := roomStore w; roomSubscriptions := roomSubscriptions w;
     trace := trace w |}.

Definition with_userStore (s : Store.t) (w : world) : world :=
  {| id := id w; cursorStore := cursorStore w; userStore := s;
     roomStore := roomStore w; roomSubscriptions := roomSubscriptions w;
     trace := trace w |}.

Definition emit (evs : list event) (w : world) : world :=
  {| id := id w; cursorStore := cursorStore w; userStore := userStore w;
     roomStore := roomStore w; roomSubscriptions := roomSubscriptions w;
     trace := trace w ++ evs |}.

(** What the session does not define itself.  [respond] is the transport:
    the state in which the promise of a request ends, given everything that
    happened before.  [parseBasicCursor] is imported from the parsers but
    not defined in [src/parsers.js]; [fetchMissingUsers] belongs to the
    missing user store and may fetch, log and fill the user store as it
    likes; [set_done] is the value the promise of [Store.set] resolves
    with, which the spec leaves open. *)
Record env : Type := {
  respond : list event -> request -> outcome string;
  JSON_parse : string -> completion value;
  encodeURIComponent : string -> string;
  parseBasicCursor : value -> completion value;
  fetchMissingUsers :
    list value -> Store.t -> list event -> outcome value * Store.t * list event;
  set_done : value -> value
}.

(** A promise-returning computation over the world. *)
Definition promise (A : Type) : Type := world -> outcome A * world.

Definition resolve {A} (a : A) : promise A := fun w => (Resolved a, w).
Definition reject {A} (e : error) : promise A := fun w => (Rejected e, w).

(** [p.then(f)] *)
Definition then_ {A B} (p : promise A) (f : A -> promise B) : promise B :=
  fun w =>
    match p w with
    | (Resolved a, w') => f a w'
    | (Rejected e, w') => (Rejected e, w')
    | (Pending, w') => (Pending, w')
    end.

(** [p.catch(h)] *)
Definition catch_ {A} (p : promise A) (h : error -> promise A) : promise A :=
  fun w =>
    match p w with
    | (Rejected e, w') => h e w'
    | r => r
    end.

(** A callback that returns or throws, run inside a promise chain. *)
Definition of_completion {A} (c : completion A) : promise A :=
  match c with
  | Returned a => resolve a
  | Thrown e => reject e
  end.

(** [instance.request(options)] *)
Definition instance_request (E : env) (r : request) : promise string :=
  fun w => (respond E (trace w) r, emit [Sent r] w).

(** [Promise.all([p, q])]: both calls are made, in this order; the result
    is the array of the two results, or the first rejection. *)
Definition promise_all2 (p q : promise value) : promise value :=
  fun w =>
    let first := p w in
    let second := q (snd first) in
    (match fst first, fst second with
     | Resolved a, Resolved b => Resolved (VArr [a; b])
     | Rejected e, _ => Rejected e
     | _, Rejected e => Rejected e
     | _, _ => Pending
     end, snd second).

(** [userStore.fetchMissingUsers(ids)], run in the world. *)
Definition userStore_fetchMissingUsers (E : env) (ids : list value) : promise value :=
  fun w =>
    let r := fetchMissingUsers E ids (userStore w) (trace w) in
    (fst (fst r), emit (snd r) (with_userStore (snd (fst r)) w)).

(** Modelled from the spec: [RoomStore.snapshot] of the missing
    [src/room-store.js] returns the current mapping from room id to room. *)
Definition roomStore_snapshot (w : world) : gmap string (list (string * value)) :=
  roomStore w.

(** [logger.warn(...)], [logger.error(...)] *)
Definition log (l : level) (args : list log_arg) (w : world) : world :=
  emit [Logged l args] w.

End Session.
Export Session.

(* ===================================================================== *)
(** ** cursor-store.js *)
(* ===================================================================== *)

Module CursorStore.

Section WithEnv.

Variable E : env.

Definition key (userId roomId : value) : string :=
  to_string userId +:+ "/" +:+ to_string roomId.

Definition decorate (basicCursor : value) : value :=
  if truthy basicCursor then VCursor basicCursor else VUndefined.

Definition initialize (initial : gmap string value) (w : world) : world :=
  with_cursorStore (Store.initialize (decorate <$> initial) (cursorStore w)) w.

(** [this.store.set(key, value)]: the write of the store, then a promise
    resolved with [set_done]. *)
Definition store_set (k : string) (v : value) : promise value :=
  fun w => (Resolved (set_done E v), with_cursorStore (Store.set k v (cursorStore w)) w).

Definition set (userId roomId cursor : value) : promise value :=
  promise_all2
    (store_set (key userId roomId) (decorate cursor))
    (userStore_fetchMissingUsers E [userId]).

(** The options of the point fetch of a basic cursor. *)
Definition cursor_request (userId roomId : value) : request :=
  {| req_instance := CursorsInstance;
     req_method := "GET";
     req_path := "/cursors/0/rooms/"
                 +:+ encodeURIComponent E (to_string roomId)
                 +:+ "/users/"
                 +:+ encodeURIComponent E (to_string userId);
     req_json := None;
     req_body := None |}.

Definition fetchBasicCursor (userId roomId : value) : promise value :=
  catch_
    (then_
       (instance_request E (cursor_request userId roomId))
       (fun res =>
          of_completion
            (let! data := JSON_parse E res in
             if truthy data then parseBasicCursor E data
             else Returned VUndefined)))
    (fun err w =>
       (Rejected err, log Warn [LogStr "error fetching cursor:"; LogErr err] w)).

Definition get (userId roomId : value) : promise value :=
  then_
    (fun w => (Store.get (key userId roomId) (cursorStore w), w))
    (fun cursor =>
       if truthy cursor then resolve cursor
       else then_ (fetchBasicCursor userId roomId)
                  (fun cursor => set userId roomId cursor)).

Definition getSync (userId roomId : value) (w : world) : value :=
  Store.getSync (key userId roomId) (cursorStore w).

(** Sequences of calls on the cursor store. *)
Inductive op : Type :=
| OpInitialize (initial : gmap string value)
| OpSet (userId roomId cursor : value)
| OpGet (userId roomId : value).

Definition apply (o : op) (w : world) : world :=
  match o with
  | OpInitialize initial => initialize initial w
  | OpSet u r c => snd (set u r c w)
  | OpGet u r => snd (get u r w)
  end.

Definition run (ops : list op) (w : world) : world :=
  fold_left (fun w o => apply o w) ops w.

(** The call may write under key [k] with [Store.set]. *)
Definition writes (k : string) (o : op) : bool :=
  match o with
  | OpInitialize _ => false
  | OpSet u r _ => String.eqb (key u r) k
  | OpGet u r => String.eqb (key u r) k
  end.

End WithEnv.

End CursorStore.

(* ===================================================================== *)
(** ** current-user.js *)
(* ===================================================================== *)

Module CurrentUser.

(** Modelled from the spec: [typeCheck] of the missing [src/utils.js]
    raises a validation error, a [TypeError], when the argument is not of
    the expected type, and does nothing otherwise. *)
Definition typeCheck (name expectedType : string) (v : value) : completion unit :=
  if String.eqb (typeof v) expectedType then Returned tt
  else Thrown (TypeError ("expected " +:+ name +:+ " to be of type "
                          +:+ expectedType +:+ " but was of type " +:+ typeof v)).

(** ramda's [has(prop, obj)] on an object used as a map: own-property test
    under the property key of [prop]. *)
Definition has {A} (prop : value) (obj : gmap string A) : bool :=
  bool_decide (is_Some (obj !! to_string prop)).

(** A destructured parameter with a default: [{ x = d }]. *)
Definition default_param (v d : value) : value :=
  match v with
  | VUndefined => d
  | _ => v
  end.

(** [a && f()] where [f] may throw. *)
Definition and_then (a : bool) (c : completion bool) : completion bool :=
  if a then c else Returned false.

Section WithEnv.

Variable E : env.

(** [get rooms ()]: the values of the room store's snapshot. *)
Definition rooms (w : world) : list (list (string * value)) :=
  (map_to_list (roomStore_snapshot w)).*2.

Definition readCursor_error (roomId : value) : error :=
  TypeError ("Must be subscribed to room " +:+ to_string roomId
             +:+ " to access member's read cursors").

Definition readCursor (roomId userId : value) (w : world) : completion value * world :=
  let userId := default_param userId (VStr (id w)) in
  match typeCheck "roomId" "number" roomId with
  | Thrown e => (Thrown e, w)
  | Returned _ =>
      match typeCheck "userId" "string" userId with
      | Thrown e => (Thrown e, w)
      | Returned _ =>
          if negb (strict_eq userId (VStr (id w)))
             && negb (has roomId (roomSubscriptions w))
          then
            let err := readCursor_error roomId in
            (Thrown err, log Error [LogErr err] w)
          else (Returned (CursorStore.getSync userId roomId w), w)
      end
  end.

Definition isDataAttachment (attachment : value) : completion bool :=
  let! file := get_prop attachment "file" in
  let! name := get_prop attachment "name" in
  if strict_eq file VUndefined || strict_eq name VUndefined then Returned false
  else
    let! file_checked := typeCheck "attachment.file" "object" file in
    let! name_checked := typeCheck "attachment.name" "string" name in
    Returned true.

Definition isLinkAttachment (attachment : value) : completion bool :=
  let! link := get_prop attachment "link" in
  let! type := get_prop attachment "type" in
  if strict_eq link VUndefined || strict_eq type VUndefined then Returned false
  else
    let! link_checked := typeCheck "attachment.link" "string" link in
    let! type_checked := typeCheck "attachment.type" "string" type in
    Returned true.

Definition uploadDataAttachment (roomId attachment : value) : promise value :=
  then_
    (of_completion
       (let! file := get_prop attachment "file" in
        let! name := get_prop attachment "name" in
        Returned (file, name)))
    (fun file_name =>
       then_
         (instance_request E
            {| req_instance := FilesInstance;
               req_method := "POST";
               req_path := "/rooms/" +:+ to_string roomId
                           +:+ "/files/" +:+ to_string (snd file_name);
               req_json := None;
               req_body := Some [("file", fst file_name, snd file_name)] |})
         (fun res => of_completion (JSON_parse E res))).

(** The executor of the promise [sendMessage] builds; a throw inside it
    rejects the promise. *)
Definition sendMessage_attachment (roomId attachment : value) : promise value :=
  then_
    (of_completion
       (and_then (negb (strict_eq attachment VUndefined)) (isDataAttachment attachment)))
    (fun isData =>
       if isData then uploadDataAttachment roomId attachment
       else
         then_
           (of_completion
              (and_then (negb (strict_eq attachment VUndefined))
                        (isLinkAttachment attachment)))
           (fun isLink =>
              if isLink then
                of_completion
                  (let! link := get_prop attachment "link" in
                   let! type := get_prop attachment "type" in
                   Returned (VObj [("resource_link", link); ("type", type)]))
              else if negb (strict_eq attachment VUndefined) then
                reject (TypeError "attachment was malformed")
              else resolve VUndefined)).

Definition sendMessage (text roomId attachment : value) (w : world)
  : completion (outcome value) * world :=
  match typeCheck "text" "string" text with
  | Thrown e => (Thrown e, w)
  | Returned _ =>
      match typeCheck "roomId" "number" roomId with
      | Thrown e => (Thrown e, w)
      | Returned _ =>
          let sent_message :=
            catch_
              (then_
                 (then_
                    (sendMessage_attachment roomId attachment)
                    (fun attachment =>
                       instance_request E
                         {| req_instance := ApiInstance;
                            req_method := "POST";
                            req_path := "/rooms/" +:+ to_string roomId +:+ "/messages";
                            req_json := Some (VObj [("text", text);
                                                    ("attachment", attachment)]);
                            req_body := None |}))
                 (fun res =>
                    of_completion
                      (let! parsed := JSON_parse E res in
                       get_prop parsed "message_id")))
              (fun err w =>
                 (Rejected err,
                  log Warn [LogStr ("error sending message to room "
                                    +:+ to_string roomId +:+ ":");
                            LogErr err] w))
              w in
          (Returned (fst sent_message), snd sent_message)
      end
  end.

Definition isMemberOf (roomId : value) (w : world) : bool :=
  contains roomId (map (field_or_undefined "id") (rooms w)).

(** The [newCursor] hook [subscribeToRoom] hands to the room's cursor
    subscription.  Calling the caller's hook is recorded in the trace. *)
Definition subscribeToRoom_newCursor (hooks : hooks) (cursor : value) (w : world)
  : completion unit * world :=
  match onNewReadCursor hooks with
  | None => (Returned tt, w)
  | Some f =>
      match get_prop cursor "type" with
      | Thrown e => (Thrown e, w)
      | Returned type =>
          if strict_eq type (VNum 0) then
            match get_prop cursor "userId" with
            | Thrown e => (Thrown e, w)
            | Returned userId =>
                if negb (strict_eq userId (VStr (id w)))
                then (Returned tt, emit [HookCalled f cursor] w)
                else (Returned tt, w)
            end
          else (Returned tt, w)
      end
  end.

(** The [newCursor] hook [establishCursorSubscription] hands to the
    user's cursor subscription. *)
Definition establishCursorSubscription_newCursor
  (hooks : hooks) (cursor : value) (w : world) : completion unit * world :=
  match onNewReadCursor hooks with
  | None => (Returned tt, w)
  | Some f =>
      match get_prop cursor "type" with
      | Thrown e => (Thrown e, w)
      | Returned type =>
          if strict_eq type (VNum 0) then
            match get_prop cursor "roomId" with
            | Thrown e => (Thrown e, w)
            | Returned roomId =>
                if isMemberOf roomId w
                then (Returned tt, emit [HookCalled f cursor] w)
                else (Returned tt, w)
            end
          else (Returned tt, w)
      end
  end.

(** ramda's [chain(prop('userIds'), rooms)]: the arrays are spliced, any
    other value is kept as one element (a room's [userIds] is an array, or
    [undefined] when the payload had no member list). *)
Definition chain_userIds (rs : list (list (string * value))) : list value :=
  flat_map
    (fun room =>
       match field_or_undefined "userIds" room with
       | VArr xs => xs
       | v => [v]
       end) rs.

(** ramda's [uniq]: the first occurrence of every value, by [equals]. *)
Fixpoint uniq_from (seen l : list value) : list value :=
  match l with
  | [] => []
  | x :: l' =>
      if contains x seen then uniq_from seen l'
      else x :: uniq_from (x :: seen) l'
  end.

Definition uniq (l : list value) : list value := uniq_from [] l.

(** Modelled from the spec: [UserStore.initialize] of the missing
    [src/user-store.js] marks the user store initialized, merging the
    entries given; none of the store operations fails. *)
Definition userStore_initialize (initial : gmap string value) : promise value :=
  fun w => (Resolved VUndefined, with_userStore (Store.initialize initial (userStore w)) w).

Definition initializeUserStore : promise value :=
  fun w =>
    then_
      (catch_
         (userStore_fetchMissingUsers E (uniq (chain_userIds (rooms w))))
         (fun err w =>
            (Resolved VUndefined,
             log Warn [LogStr "error fetching initial user information:";
                       LogErr err] w)))
      (fun _ => userStore_initialize ∅)
      w.

End WithEnv.

End CurrentUser.

(* ===================================================================== *)
(** ** current-user.js: requests about cursors and rooms *)
(* ===================================================================== *)

Module CurrentUserRequests.

Import CurrentUser.

(** The methods of the room store ([src/room-store.js] is missing) that the
    current user calls: each is taken as it comes, any promise over the
    world. *)
Record room_store : Type := {
  roomStore_get : value -> promise value;
  roomStore_set : value -> value -> promise value;
  roomStore_pop : value -> promise value;
  roomStore_addUserToRoom : value -> value -> promise value;
  roomStore_removeUserFromRoom : value -> value -> promise value
}.

(** A method body that runs its argument checks and then returns a
    promise: a failed check throws before the promise is built. *)
Definition after_checks {A} (checks : completion unit) (p : promise A) (w : world)
  : completion (outcome A) * world :=
  match checks with
  | Thrown e => (Thrown e, w)
  | Returned _ => (Returned (fst (p w)), snd (p w))
  end.

(** [x && typeCheck(name, type, x)] *)
Definition check_if_given (name expectedType : string) (v : value) : completion unit :=
  if truthy v then typeCheck name expectedType v else Returned tt.

(** [.catch(err => { this.logger.warn(msg, err); throw err })] *)
Definition warn_and_rethrow {A} (msg : string) (p : promise A) : promise A :=
  catch_ p (fun err w => (Rejected err, log Warn [LogStr msg; LogErr err] w)).

(** What is left of a promise of the room store once a rejection has been
    logged. *)
Definition logged (msg : string) (r : outcome value * world)
  : completion (outcome value) * world :=
  match r with
  | (Rejected e, w') => (Returned (Rejected e), log Warn [LogStr msg; LogErr e] w')
  | (o, w') => (Returned o, w')
  end.

Section WithEnv.

Variable E : env.
Variable R : room_store.

(** [this.encodedId] *)
Definition encodedId (w : world) : string := encodeURIComponent E (id w).

Definition setReadCursor_request (roomId position : value) (w : world) : request :=
  {| req_instance := CursorsInstance;
     req_method := "PUT";
     req_path := "/cursors/0/rooms/" +:+ to_string roomId
                 +:+ "/users/" +:+ encodedId w;
     req_json := Some (VObj [("position", position)]);
     req_body := None |}.

Definition setReadCursor (roomId position : value) (w : world)
  : completion (outcome value) * world :=
  after_checks
    (let! roomId_checked := typeCheck "roomId" "number" roomId in
     typeCheck "position" "number" position)
    (warn_and_rethrow "error setting cursor:"
       (then_ (instance_request E (setReadCursor_request roomId position w))
              (fun _ => resolve VUndefined)))
    w.

Definition updateRoom_request (roomId name private : value) : request :=
  {| req_instance := ApiInstance;
     req_method := "PUT";
     req_path := "/rooms/" +:+ to_string roomId;
     req_json := Some (VObj [("name", name); ("private", VBool (truthy private))]);
     req_body := None |}.

Definition updateRoom (roomId name private : value) (w : world)
  : completion (outcome value) * world :=
  after_checks
    (let! roomId_checked := typeCheck "roomId" "number" roomId in
     check_if_given "name" "string" name)
    (warn_and_rethrow "error updating room:"
       (then_ (instance_request E (updateRoom_request roomId name private))
              (fun _ => resolve VUndefined)))
    w.

Definition deleteRoom_request (roomId : value) : request :=
  {| req_instance := ApiInstance;
     req_method := "DELETE";
     req_path := "/rooms/" +:+ to_string roomId;
     req_json := None;
     req_body := None |}.

Definition deleteRoom (roomId : value) (w : world)
  : completion (outcome value) * world :=
  after_checks
    (typeCheck "roomId" "number" roomId)
    (warn_and_rethrow "error deleting room:"
       (then_ (instance_request E (deleteRoom_request roomId))
              (fun _ => resolve VUndefined)))
    w.

Definition joinRoom_request (roomId : value) (w : world) : request :=
  {| req_instance := ApiInstance;
     req_method := "POST";
     req_path := "/users/" +:+ encodedId w +:+ "/rooms/"
                 +:+ to_string roomId +:+ "/join";
     req_json := None;
     req_body := None |}.

Definition joinRoom (roomId : value) (w : world)
  : completion (outcome value) * world :=
  after_checks
    (typeCheck "roomId" "number" roomId)
    (if isMemberOf roomId w then roomStore_get R roomId
     else
       warn_and_rethrow ("error joining room " +:+ to_string roomId +:+ ":")
         (then_ (instance_request E (joinRoom_request roomId w))
                (fun res =>
                   then_
                     (of_completion
                        (let! parsed := JSON_parse E res in
                         let! basicRoom := Parsers.parseBasicRoom parsed in
                         let! basicRoom_id := get_prop basicRoom "id" in
                         Returned (basicRoom_id, basicRoom)))
                     (fun room => roomStore_set R (fst room) (snd room)))))
    w.

Definition leaveRoom_request (roomId : value) (w : world) : request :=
  {| req_instance := ApiInstance;
     req_method := "POST";
     req_path := "/users/" +:+ encodedId w +:+ "/rooms/"
                 +:+ to_string roomId +:+ "/leave";
     req_json := None;
     req_body := None |}.

Definition leaveRoom (roomId : value) (w : world)
  : completion (outcome value) * world :=
  after_checks
    (typeCheck "roomId" "number" roomId)
    (warn_and_rethrow ("error leaving room " +:+ to_string roomId +:+ ":")
       (then_ (instance_request E (leaveRoom_request roomId w))
              (fun _ => roomStore_pop R roomId)))
    w.

Definition addUserToRoom_request (userId roomId : value) : request :=
  {| req_instance := ApiInstance;
     req_method := "PUT";
     req_path := "/rooms/" +:+ to_string roomId +:+ "/users/add";
     req_json := Some (VObj [("user_ids", VArr [userId])]);
     req_body := None |}.

Definition addUserToRoom (userId roomId : value) (w : world)
  : completion (outcome value) * world :=
  after_checks
    (let! userId_checked := typeCheck "userId" "string" userId in
     typeCheck "roomId" "number" roomId)
    (warn_and_rethrow
       ("error adding user " +:+ to_string userId +:+ " to room "
        +:+ to_string roomId +:+ ":")
       (then_ (instance_request E (addUserToRoom_request userId roomId))
              (fun _ => roomStore_addUserToRoom R roomId userId)))
    w.

Definition removeUserFromRoom_request (userId roomId : value) : request :=
  {| req_instance := ApiInstance;
     req_method := "PUT";
     req_path := "/rooms/" +:+ to_string roomId +:+ "/users/remove";
     req_json := Some (VObj [("user_ids", VArr [userId])]);
     req_body := None |}.

Definition removeUserFromRoom (userId roomId : value) (w : world)
  : completion (outcome value) * world :=
  after_checks
    (let! userId_checked := typeCheck "userId" "string" userId in
     typeCheck "roomId" "number" roomId)
    (warn_and_rethrow
       ("error removing user " +:+ to_string userId +:+ " from room "
        +:+ to_string roomId +:+ ":")
       (then_ (instance_request E (removeUserFromRoom_request userId roomId))
              (fun _ => roomStore_removeUserFromRoom R roomId userId)))
    w.

(** The requests [sendMessage] and [uploadDataAttachment] make. *)
Definition sendMessage_request (text roomId attachment : value) : request :=
  {| req_instance := ApiInstance;
     req_method := "POST";
     req_path := "/rooms/" +:+ to_string roomId +:+ "/messages";
     req_json := Some (VObj [("text", text); ("attachment", attachment)]);
     req_body := None |}.


(** The warning [sendMessage] logs. *)
Definition sendMessage_warning (roomId : value) (e : error) : event :=
  Logged Warn [LogStr ("error sending message to room " +:+ to_string roomId +:+ ":");
               LogErr e].

(** The message request and what follows it, once the attachment is
    settled. *)
Definition message_chain (text roomId : value) (attachment : promise value)
  : promise value :=
  catch_
    (then_
       (then_ attachment
          (fun a => instance_request E (sendMessage_request text roomId a)))
       (fun res =>
          of_completion
            (let! parsed := JSON_parse E res in get_prop parsed "message_id")))
    (fun err w => (Rejected err, emit [sendMessage_warning roomId err] w)).

End WithEnv.

End CurrentUserRequests.

(* ===================================================================== *)
(** ** The words of the specification *)
(* ===================================================================== *)

Module Spec.

(** A data attachment: [file] and [name] present and well-typed. *)
Definition data_attachment (attachment : value) : bool :=
  negb (strict_eq (member attachment "file") VUndefined)
  && negb (strict_eq (member attachment "name") VUndefined)
  && String.eqb (typeof (member attachment "file")) "object"
  && String.eqb (typeof (member attachment "name")) "string".

(** A link attachment: [link] and [type] present and well-typed. *)
Definition link_attachment (attachment : value) : bool :=
  negb (strict_eq (member attachment "link") VUndefined)
  && negb (strict_eq (member attachment "type") VUndefined)
  && String.eqb (typeof (member attachment "link")) "string"
  && String.eqb (typeof (member attachment "type")) "string".

(** The payload's state is exactly ['online'] or ['offline']. *)
Definition online_or_offline (v : value) : bool :=
  match v with
  | VStr s => String.eqb s "online" || String.eqb s "offline"
  | _ => false
  end.

(** A key written in snake_case: lower-case letters, digits and
    underscores only. *)
Definition snake_char (c : ascii) : bool :=
  let n := nat_of_ascii c in
  (Nat.leb 97 n && Nat.leb n 122) || (Nat.leb 48 n && Nat.leb n 57) || Nat.eqb n 95.

Fixpoint snake_case (s : string) : bool :=
  match s with
  | EmptyString => true
  | String c s' => snake_char c && snake_case s'
  end.

Definition keys (fs : list (string * value)) : list string := map fst fs.

(** The user store marked initialized with an empty merge. *)
Definition ready (w : world) : world :=
  with_userStore (Store.initialize ∅ (userStore w)) w.

(** Fetch-on-miss idempotence of outcome, at one session: once a first
    [get(u, r)] has completed and a result is stored under the key, a second
    [get(u, r)] resolves with the same value and sends no request. *)
Definition get_twice_same_without_fetch (E : env) (u r : value) (w : world) : Prop :=
  forall (v1 : value) (w1 : world),
    CursorStore.get E u r w = (Resolved v1, w1) ->
    is_Some (Store.entries (cursorStore w1) !! CursorStore.key u r) ->
    exists w2,
      CursorStore.get E u r w1 = (Resolved v1, w2) /\
      sent (trace w2) = sent (trace w1).

(** The filter of the room-scoped cursor subscription, asked of the
    user-scoped one: the caller's hook is called only for a cursor of type 0
    whose user is not the local user. *)
Definition hook_only_for_others (hooks : hooks) (cursor : value) (w : world) : Prop :=
  forall f,
    trace (snd (CurrentUser.establishCursorSubscription_newCursor hooks cursor w))
    = trace w ++ [HookCalled f cursor] ->
    member cursor "type" = VNum 0 /\ member cursor "userId" <> VStr (id w).

End Spec.

(* ===================================================================== *)
(** ** Concrete sessions *)
(* ===================================================================== *)

Module Examples.

(** A parser of basic cursors in the style of [parsers.js]. *)
Definition cursor_of_payload (data : value) : completion value :=
  let! position := get_prop data "position" in
  let! updated_at := get_prop data "updated_at" in
  let! user_id := get_prop data "user_id" in
  let! room_id := get_prop data "room_id" in
  let! cursor_type := get_prop data "cursor_type" in
  Returned (VObj [
    ("position", position);
    ("updatedAt", updated_at);
    ("userId", user_id);
    ("roomId", room_id);
    ("type", cursor_type)
  ]).

(** A user store that has every user already. *)
Definition users_known (ids : list value) (s : Store.t) (t : list event)
  : outcome value * Store.t * list event :=
  (Resolved VUndefined, s, []).

(** A user directory that is down. *)
Definition users_down (ids : list value) (s : Store.t) (t : list event)
  : outcome value * Store.t * list event :=
  (Rejected (OtherError (VStr "directory unavailable")), s,
   [Sent {| req_instance := ApiInstance; req_method := "GET";
            req_path := "/users_by_ids"; req_json := None; req_body := None |}]).

(** A server that answers every request with [body], which decodes to
    [decoded]. *)
Definition server (body : string) (decoded : value)
  (users : list value -> Store.t -> list event -> outcome value * Store.t * list event)
  : env :=
  {| respond := fun _ _ => Resolved body;
     JSON_parse := fun s =>
       if String.eqb s body then Returned decoded
       else Thrown (OtherError (VStr "SyntaxError"));
     encodeURIComponent := fun s => s;
     parseBasicCursor := cursor_of_payload;
     fetchMissingUsers := users;
     set_done := fun v => v |}.

Definition bob_payload : value :=
  VObj [("position", VNum 42); ("updated_at", VStr "2018-03-01T10:00:00Z");
        ("user_id", VStr "bob"); ("room_id", VNum 1); ("cursor_type", VNum 0)].

Definition bob_basic : value :=
  VObj [("position", VNum 42); ("updatedAt", VStr "2018-03-01T10:00:00Z");
        ("userId", VStr "bob"); ("roomId", VNum 1); ("type", VNum 0)].

Definition alice_basic : value :=
  VObj [("position", VNum 7); ("updatedAt", VStr "2018-03-01T11:00:00Z");
        ("userId", VStr "alice"); ("roomId", VNum 1); ("type", VNum 0)].

Definition no_cursor_server : env := server "null" VNull users_known.
Definition bob_cursor_server : env := server "{bob}" bob_payload users_known.
Definition users_down_server : env := server "null" VNull users_down.

Definition room1 : list (string * value) :=
  [("id", VNum 1); ("name", VStr "general");
   ("userIds", VArr [VStr "alice"; VStr "bob"])].

(** Alice's session once the subscriptions are up: stores initialized,
    member of room 1, not subscribed to any room. *)
Definition alice : world :=
  {| id := "alice";
     cursorStore := Store.initialize ∅ Store.empty;
     userStore := Store.empty;
     roomStore := {[ "1" := room1 ]};
     roomSubscriptions := ∅;
     trace := [] |}.

Definition listening : hooks := {| onNewReadCursor := Some 0 |}.

Definition bob : value := VStr "bob".
Definition room : value := VNum 1.

(** Alice's session after a first [get] of bob's cursor in room 1. *)
Definition alice_after_get : world :=
  snd (CursorStore.get bob_cursor_server bob room alice).

(** A bulk snapshot that holds another cursor under bob's key. *)
Definition stale_snapshot : gmap string value :=
  {[ CursorStore.key bob room := alice_basic ]}.

Definition snake_room : list (string * value) :=
  [("id", VNum 7); ("name", VStr "general");
   ("created_at", VStr "2018-03-01T10:00:00Z");
   ("updated_at", VStr "2018-03-02T10:00:00Z");
   ("deleted_at", VStr "2018-03-03T10:00:00Z")].

End Examples.

(* ===================================================================== *)
(** ** Keys of the cursor store, and more sessions *)
(* ===================================================================== *)

Module Keys.

(** The string holds no ["/"]. *)
Fixpoint slash_free (s : string) : bool :=
  match s with
  | EmptyString => true
  | String c s' => negb (Ascii.eqb c "/") && slash_free s'
  end.

End Keys.

Module MoreExamples.

Import Examples.

Definition outage : error := OtherError (VStr "network down").

(** A server that refuses every request. *)
Definition down_server : env :=
  {| respond := fun _ _ => Rejected outage;
     JSON_parse := fun _ => Thrown (OtherError (VStr "SyntaxError"));
     encodeURIComponent := fun s => s;
     parseBasicCursor := cursor_of_payload;
     fetchMissingUsers := users_known;
     set_done := fun v => v |}.

(** A server that answers every request with a message id. *)
Definition message_server : env :=
  server "{message_id}" (VObj [("message_id", VNum 99)]) users_known.



(** A room store that answers at once and writes nothing. *)
Definition idle_rooms : CurrentUserRequests.room_store :=
  {| CurrentUserRequests.roomStore_get := fun _ => resolve (VObj room1);
     CurrentUserRequests.roomStore_set := fun _ room => resolve room;
     CurrentUserRequests.roomStore_pop := fun _ => resolve VUndefined;
     CurrentUserRequests.roomStore_addUserToRoom := fun _ _ => resolve VUndefined;
     CurrentUserRequests.roomStore_removeUserFromRoom := fun _ _ => resolve VUndefined |}.


Definition link : value :=
  VObj [("link", VStr "https://example.com/cat.png"); ("type", VStr "image")].

(** A link attachment that also carries a file of the wrong type. *)
Definition confused : value :=
  VObj [("file", VStr "cat.png"); ("name", VStr "cat");
        ("link", VStr "https://example.com/cat.png"); ("type", VStr "image")].

(** Alice's session before any store is initialized. *)
Definition alice_connecting : world :=
  {| id := "alice";
     cursorStore := Store.empty;
     userStore := Store.empty;
     roomStore := ∅;
     roomSubscriptions := ∅;
     trace := [] |}.

End MoreExamples.

(* ===================================================================== *)
(** * Properties *)
(* ===================================================================== *)

Import Spec.

(* --------------------------------------------------------------------- *)
(** ** Comparisons against a primitive *)
(* --------------------------------------------------------------------- *)

Lemma strict_eq_str_r (v : value) (s : string) :
  strict_eq v (VStr s) = true <-> v = VStr s.
Proof.
  destruct v; simpl; split; try discriminate; try congruence.
  - intros H. apply String.eqb_eq in H. now subst.
  - intros [= ->]. apply String.eqb_refl.
Qed.

Lemma strict_eq_num_r (v : value) (n : Z) :
  strict_eq v (VNum n) = true <-> v = VNum n.
Proof.
  destruct v; simpl; split; try discriminate; try congruence.
  - intros H. apply Z.eqb_eq in H. now subst.
  - intros [= ->]. apply Z.eqb_refl.
Qed.

Lemma strict_eq_undefined_r (v : value) :
  strict_eq v VUndefined = true <-> v = VUndefined.
Proof. destruct v; simpl; split; congruence. Qed.

Lemma null_or_not (v : value) : v = VNull \/ v <> VNull.
Proof. destruct v; auto; right; discriminate. Qed.

Lemma get_prop_defined (v : value) (k : string) :
  v <> VUndefined -> v <> VNull -> get_prop v k = Returned (member v k).
Proof. destruct v; simpl; congruence. Qed.

(* --------------------------------------------------------------------- *)
(** ** The parsers *)
(* --------------------------------------------------------------------- *)

Section ParserFacts.

Import Parsers.

Lemma field_absent_of_keys (k : string) (fs : list (string * value)) :
  ~ In k (keys fs) -> field k fs = None.
Proof.
  induction fs as [|[k' v] fs IH]; simpl; intros Hk; [reflexivity|].
  destruct (String.eqb k k') eqn:E.
  - apply String.eqb_eq in E. subst. exfalso. apply Hk. now left.
  - apply IH. intros Hin. apply Hk. now right.
Qed.

Lemma snake_keys_exclude (k : string) (fs : list (string * value)) :
  snake_case k = false ->
  Forall (fun k' => snake_case k' = true) (keys fs) ->
  ~ In k (keys fs).
Proof.
  intros Hk Hall Hin.
  rewrite Forall_forall in Hall.
  specialize (Hall k). rewrite list_elem_of_In in Hall.
  specialize (Hall Hin). congruence.
Qed.

Lemma contains_online_offline (v : value) :
  contains v [VStr "online"; VStr "offline"] = online_or_offline v.
Proof.
  unfold contains. cbn [existsb].
  destruct v; try reflexivity.
  cbn [equals online_or_offline].
  rewrite orb_false_r.
  rewrite (String.eqb_sym "online" s), (String.eqb_sym "offline" s).
  reflexivity.
Qed.

(** C9. For every payload object, [parsePresence] returns a record whose
    [state] is the payload's [state] when that is exactly ['online'] or
    ['offline'] and ['unknown'] for every other value (a missing field
    included); the output state is always one of the three. *)
Theorem parsePresence_state (fs : list (string * value)) :
  exists r,
    parsePresence (VObj fs) = Returned r /\
    member r "state" =
      (if online_or_offline (member (VObj fs) "state")
       then member (VObj fs) "state" else VStr "unknown") /\
    (member r "state" = VStr "online" \/
     member r "state" = VStr "offline" \/
     member r "state" = VStr "unknown").
Proof.
  eexists. split; [reflexivity|].
  cbn [member field_or_undefined field String.eqb Ascii.eqb Bool.eqb].
  fold (field_or_undefined "state" fs).
  rewrite contains_online_offline.
  split; [reflexivity|].
  destruct (field_or_undefined "state" fs) as [| | | |s| | |]; cbn; auto.
  destruct (String.eqb s "online") eqn:E1.
  - apply String.eqb_eq in E1. subst. auto.
  - destruct (String.eqb s "offline") eqn:E2; cbn; auto.
    apply String.eqb_eq in E2. subst. auto.
Qed.

(** C10. [parseBasicRoom] reads [createdAt] and [updatedAt] from the
    snake_case fields [created_at] and [updated_at] but [deletedAt] from the
    camelCase field [deletedAt]; so for a payload whose keys are all
    snake_case, whatever it holds under [deleted_at], the parsed room's
    [deletedAt] is [undefined]. *)
Theorem parseBasicRoom_deletedAt (fs : list (string * value)) :
  exists r,
    parseBasicRoom (VObj fs) = Returned r /\
    member r "createdAt" = member (VObj fs) "created_at" /\
    member r "updatedAt" = member (VObj fs) "updated_at" /\
    member r "deletedAt" = member (VObj fs) "deletedAt" /\
    (Forall (fun k => snake_case k = true) (keys fs) ->
     member r "deletedAt" = VUndefined).
Proof.
  eexists. split; [reflexivity|].
  repeat split; try reflexivity.
  intros Hall. cbn [member field_or_undefined field String.eqb].
  unfold field_or_undefined.
  rewrite (field_absent_of_keys "deletedAt" fs); [reflexivity|].
  apply snake_keys_exclude; [reflexivity | exact Hall].
Qed.

Lemma parseBasicRoom_deletedAt_witness :
  exists r,
    parseBasicRoom (VObj Examples.snake_room) = Returned r /\
    member r "createdAt" = VStr "2018-03-01T10:00:00Z" /\
    member r "deletedAt" = VUndefined.
Proof.
  destruct (parseBasicRoom_deletedAt Examples.snake_room) as (r & Hr & Hc & _ & _ & Hd).
  exists r. split; [exact Hr|]. split.
  - rewrite Hc. reflexivity.
  - apply Hd. unfold Examples.snake_room, keys. simpl.
    repeat constructor.
Defined.

End ParserFacts.

(* --------------------------------------------------------------------- *)
(** ** The store *)
(* --------------------------------------------------------------------- *)

Lemma lookup_initialize (initial : gmap string value) (s : Store.t) (k : string) :
  Store.entries (Store.initialize initial s) !! k =
    match Store.entries s !! k with
    | Some v => Some v
    | None => initial !! k
    end.
Proof.
  unfold Store.initialize. cbn [Store.entries].
  rewrite lookup_union.
  destruct (Store.entries s !! k) as [v|]; destruct (initial !! k); reflexivity.
Qed.

Lemma lookup_set (k k' : string) (v : value) (s : Store.t) :
  Store.entries (Store.set k v s) !! k' =
    if decide (k = k') then Some v else Store.entries s !! k'.
Proof. unfold Store.set. cbn [Store.entries]. apply lookup_insert. Qed.

Lemma get_resolved_initialized (k : string) (s : Store.t) (v : value) :
  Store.get k s = Resolved v -> Store.initialized s = true /\ v = Store.getSync k s.
Proof.
  unfold Store.get. destruct (Store.initialized s); [|discriminate].
  intros [= <-]. auto.
Qed.

(* --------------------------------------------------------------------- *)
(** ** The cursor store *)
(* --------------------------------------------------------------------- *)

Section CursorStoreFacts.

Variable E : env.

Lemma set_cursorStore (u r c : value) (w : world) :
  cursorStore (snd (CursorStore.set E u r c w)) =
    Store.set (CursorStore.key u r) (CursorStore.decorate c) (cursorStore w).
Proof.
  unfold CursorStore.set, promise_all2, CursorStore.store_set,
    userStore_fetchMissingUsers.
  reflexivity.
Qed.

Lemma fetchBasicCursor_cursorStore (u r : value) (w : world) :
  cursorStore (snd (CursorStore.fetchBasicCursor E u r w)) = cursorStore w.
Proof.
  unfold CursorStore.fetchBasicCursor, catch_, then_, instance_request.
  destruct (respond E _ _) as [res|e|]; cbn; try reflexivity.
  destruct (JSON_parse E res) as [data|e]; cbn; try reflexivity.
  destruct (truthy data); [|reflexivity].
  destruct (parseBasicCursor E data); reflexivity.
Qed.

Lemma get_unfold (u r : value) (w : world) :
  CursorStore.get E u r w =
    match Store.get (CursorStore.key u r) (cursorStore w) with
    | Resolved cursor =>
        if truthy cursor then (Resolved cursor, w)
        else
          match CursorStore.fetchBasicCursor E u r w with
          | (Resolved c, w') => CursorStore.set E u r c w'
          | (Rejected e, w') => (Rejected e, w')
          | (Pending, w') => (Pending, w')
          end
    | Rejected e => (Rejected e, w)
    | Pending => (Pending, w)
    end.
Proof.
  unfold CursorStore.get, then_. cbv beta.
  destruct (Store.get _ _) as [cursor|e|]; try reflexivity.
  destruct (truthy cursor); reflexivity.
Qed.

(** A [get] leaves the store as it was or writes under its own key. *)
Lemma get_cursorStore (u r : value) (w : world) :
  cursorStore (snd (CursorStore.get E u r w)) = cursorStore w \/
  exists c,
    cursorStore (snd (CursorStore.get E u r w)) =
      Store.set (CursorStore.key u r) (CursorStore.decorate c) (cursorStore w).
Proof.
  rewrite get_unfold.
  destruct (Store.get _ _) as [cursor|e|]; cbn; auto.
  destruct (truthy cursor); cbn; auto.
  pose proof (fetchBasicCursor_cursorStore u r w) as Hf.
  destruct (CursorStore.fetchBasicCursor E u r w) as [[c|e|] w'];
    cbn [snd] in *; auto.
  right. exists c. rewrite set_cursorStore. now rewrite Hf.
Qed.

Lemma get_keeps_initialized (u r : value) (w : world) :
  Store.initialized (cursorStore w) = true ->
  Store.initialized (cursorStore (snd (CursorStore.get E u r w))) = true.
Proof.
  intros Hi. destruct (get_cursorStore u r w) as [-> | [c ->]]; exact Hi.
Qed.

Lemma get_resolved_store_initialized (u r v : value) (w w1 : world) :
  CursorStore.get E u r w = (Resolved v, w1) ->
  Store.initialized (cursorStore w1) = true.
Proof.
  intros Hg.
  assert (Hi : Store.initialized (cursorStore w) = true).
  { revert Hg. rewrite get_unfold. unfold Store.get.
    destruct (Store.initialized (cursorStore w)); [reflexivity | discriminate]. }
  pose proof (get_keeps_initialized u r w Hi) as H. now rewrite Hg in H.
Qed.

(** What a miss does: one request, then [set] with the parsed cursor, and
    the promise takes the value of [set]'s [Promise.all]. *)
Lemma get_miss (u r stored basic : value) (w w1 : world) :
  Store.get (CursorStore.key u r) (cursorStore w) = Resolved stored ->
  truthy stored = false ->
  CursorStore.fetchBasicCursor E u r w = (Resolved basic, w1) ->
  CursorStore.get E u r w = CursorStore.set E u r basic w1.
Proof.
  intros Hs Ht Hf. rewrite get_unfold.
  now rewrite Hs, Ht, Hf.
Qed.

Lemma set_resolves_with_array (u r c v : value) (w w1 : world) :
  CursorStore.set E u r c w = (Resolved v, w1) ->
  exists users_done, v = VArr [set_done E (CursorStore.decorate c); users_done].
Proof.
  unfold CursorStore.set, promise_all2, CursorStore.store_set. cbn [fst snd].
  destruct (fst (userStore_fetchMissingUsers E _ _)) as [d|e|]; intros [= <- <-]; eauto.
Qed.

Lemma fetchBasicCursor_trace (u r : value) (w : world) :
  exists evs,
    trace (snd (CursorStore.fetchBasicCursor E u r w))
    = trace w ++ Sent (CursorStore.cursor_request E u r) :: evs.
Proof.
  unfold CursorStore.fetchBasicCursor, catch_, then_, instance_request.
  destruct (respond E _ _) as [res|e|]; cbn.
  - destruct (JSON_parse E res) as [data|e]; cbn.
    + destruct (truthy data); [|exists []; reflexivity].
      destruct (parseBasicCursor E data); cbn.
      * exists []. reflexivity.
      * eexists. rewrite <- app_assoc. reflexivity.
    + eexists. rewrite <- app_assoc. reflexivity.
  - eexists. rewrite <- app_assoc. reflexivity.
  - exists []. reflexivity.
Qed.

Lemma set_trace (u r c : value) (w : world) :
  exists evs, trace (snd (CursorStore.set E u r c w)) = trace w ++ evs.
Proof.
  unfold CursorStore.set, promise_all2, CursorStore.store_set,
    userStore_fetchMissingUsers.
  cbn. eexists. reflexivity.
Qed.

(** C1 (as amended). Once a first [get(u, r)] has completed: if it left a
    decorated cursor stored under the key, a second [get(u, r)] resolves
    with that stored cursor and leaves the world as it found it (nothing is
    sent, nothing is logged, no store is written); if what is stored under
    the key is [undefined], the second [get(u, r)] sends the cursor request
    again. *)
Theorem get_again_served_from_store (u r v1 : value) (w w1 : world) :
  CursorStore.get E u r w = (Resolved v1, w1) ->
  (truthy (CursorStore.getSync u r w1) = true ->
   CursorStore.get E u r w1 = (Resolved (CursorStore.getSync u r w1), w1)) /\
  (truthy (CursorStore.getSync u r w1) = false ->
   exists evs,
     trace (snd (CursorStore.get E u r w1))
     = trace w1 ++ Sent (CursorStore.cursor_request E u r) :: evs).
Proof.
  intros Hfirst.
  pose proof (get_resolved_store_initialized _ _ _ _ _ Hfirst) as Hi.
  split; intros Hstored; rewrite get_unfold; unfold Store.get;
    rewrite Hi; fold (CursorStore.getSync u r w1); rewrite Hstored.
  - reflexivity.
  - destruct (fetchBasicCursor_trace u r w1) as [evs Hevs].
    destruct (CursorStore.fetchBasicCursor E u r w1) as [[c|e|] w2];
      cbn [snd] in *; eauto.
    destruct (set_trace u r c w2) as [evs' Hevs'].
    exists (evs ++ evs'). rewrite Hevs', Hevs, <- app_assoc. reflexivity.
Qed.

Lemma apply_keeps_entry (k : string) (v : value) (o : CursorStore.op) (w : world) :
  Store.entries (cursorStore w) !! k = Some v ->
  CursorStore.writes k o = false ->
  Store.entries (cursorStore (CursorStore.apply E o w)) !! k = Some v.
Proof.
  intros Hk Hw.
  destruct o as [initial | u r c | u r]; cbn [CursorStore.apply CursorStore.writes] in *.
  - unfold CursorStore.initialize. cbn [cursorStore with_cursorStore].
    rewrite lookup_initialize. now rewrite Hk.
  - apply String.eqb_neq in Hw.
    rewrite set_cursorStore, lookup_set. now rewrite decide_False.
  - apply String.eqb_neq in Hw.
    destruct (get_cursorStore u r w) as [-> | [c ->]]; [exact Hk|].
    rewrite lookup_set. now rewrite decide_False.
Qed.

Lemma run_keeps_entry (k : string) (v : value) (ops : list CursorStore.op) (w : world) :
  Store.entries (cursorStore w) !! k = Some v ->
  Forall (fun o => CursorStore.writes k o = false) ops ->
  Store.entries (cursorStore (CursorStore.run E ops w)) !! k = Some v.
Proof.
  intros Hk Hops. revert w Hk.
  induction Hops as [|o ops Ho _ IH]; intros w Hk; [exact Hk|].
  cbn. apply IH. now apply apply_keeps_entry.
Qed.

Lemma run_app (ops1 ops2 : list CursorStore.op) (w : world) :
  CursorStore.run E (ops1 ++ ops2) w = CursorStore.run E ops2 (CursorStore.run E ops1 w).
Proof. unfold CursorStore.run. apply fold_left_app. Qed.

(** C5. Once a key has a value, written by [set] (directly or after a
    fetch), no later [initialize] changes it: whatever calls come before
    the [set] and whatever calls that do not write the key come after it,
    [initialize] calls with an entry for the key included, the key still
    holds the decorated cursor that was set.  [initialize] fills exactly the
    keys that are absent from the mapping. *)
Theorem initialize_never_overwrites
  (before after : list CursorStore.op) (u r c : value) (w : world) :
  Forall (fun o => CursorStore.writes (CursorStore.key u r) o = false) after ->
  let w' := CursorStore.run E (before ++ CursorStore.OpSet u r c :: after) w in
  Store.entries (cursorStore w') !! CursorStore.key u r = Some (CursorStore.decorate c) /\
  CursorStore.getSync u r w' = CursorStore.decorate c /\
  (forall (initial : gmap string value) (k : string),
      Store.entries (cursorStore (CursorStore.initialize initial w')) !! k =
        match Store.entries (cursorStore w') !! k with
        | Some v => Some v
        | None => CursorStore.decorate <$> initial !! k
        end).
Proof.
  intros Hafter w'.
  assert (Hk : Store.entries (cursorStore w') !! CursorStore.key u r
               = Some (CursorStore.decorate c)).
  { subst w'. rewrite run_app. cbn [CursorStore.run fold_left].
    apply run_keeps_entry; [|exact Hafter].
    cbn [CursorStore.apply]. rewrite set_cursorStore, lookup_set.
    now rewrite decide_True. }
  split; [exact Hk|]. split.
  - unfold CursorStore.getSync, Store.getSync. now rewrite Hk.
  - intros initial k. unfold CursorStore.initialize. cbn [cursorStore with_cursorStore].
    rewrite lookup_initialize, lookup_fmap. reflexivity.
Qed.

End CursorStoreFacts.

Section CursorStoreRuns.

Import Examples.

Lemma get_again_served_from_store_witness :
  CursorStore.get bob_cursor_server bob room alice_after_get
  = (Resolved (VCursor bob_basic), alice_after_get).
Proof.
  assert (H1 : CursorStore.get bob_cursor_server bob room alice
               = (Resolved (VArr [VCursor bob_basic; VUndefined]), alice_after_get))
    by (vm_compute; reflexivity).
  assert (H2 : truthy (CursorStore.getSync bob room alice_after_get) = true)
    by (vm_compute; reflexivity).
  assert (H3 : CursorStore.getSync bob room alice_after_get = VCursor bob_basic)
    by (vm_compute; reflexivity).
  rewrite <- H3.
  exact (proj1 (get_again_served_from_store bob_cursor_server bob room _ alice _ H1) H2).
Defined.

(** C1 (as stated) fails when the server has no cursor: the first [get]
    completes and stores [undefined] under the key, and the second [get]
    sends the same request again. *)
Lemma get_again_refetches_no_cursor :
  ~ get_twice_same_without_fetch no_cursor_server bob room alice.
Proof.
  intros H.
  destruct (H (VArr [VUndefined; VUndefined])
              (snd (CursorStore.get no_cursor_server bob room alice)))
    as (w2 & Hget & Hsent).
  - vm_compute. reflexivity.
  - exists VUndefined. vm_compute. reflexivity.
  - assert (Hw2 : w2 = snd (CursorStore.get no_cursor_server bob room
                              (snd (CursorStore.get no_cursor_server bob room alice)))).
    { now rewrite Hget. }
    subst w2. vm_compute in Hsent. discriminate Hsent.
Qed.

(** C2 at a miss. The key is absent, the server has bob's cursor: [get]
    sends one request and stores the decorated cursor under the key, but
    resolves with the array that [set] returns from [Promise.all], not with
    the cursor. *)
Lemma get_miss_resolves_with_array :
  Store.entries (cursorStore alice) !! CursorStore.key bob room = None /\
  sent (trace alice_after_get) =
    [Sent {| req_instance := CursorsInstance; req_method := "GET";
             req_path := "/cursors/0/rooms/1/users/bob";
             req_json := None; req_body := None |}] /\
  CursorStore.getSync bob room alice_after_get = VCursor bob_basic /\
  fst (CursorStore.get bob_cursor_server bob room alice)
  = Resolved (VArr [VCursor bob_basic; VUndefined]).
Proof. vm_compute. repeat split; reflexivity. Qed.

Lemma initialize_never_overwrites_witness :
  CursorStore.getSync bob room
    (CursorStore.run bob_cursor_server
       ([CursorStore.OpInitialize ∅]
        ++ CursorStore.OpSet bob room bob_basic
        :: [CursorStore.OpInitialize stale_snapshot;
            CursorStore.OpSet (VStr "alice") room alice_basic;
            CursorStore.OpInitialize stale_snapshot])
       alice)
  = VCursor bob_basic.
Proof.
  refine (proj1 (proj2
    (initialize_never_overwrites bob_cursor_server
       [CursorStore.OpInitialize ∅]
       [CursorStore.OpInitialize stale_snapshot;
        CursorStore.OpSet (VStr "alice") room alice_basic;
        CursorStore.OpInitialize stale_snapshot]
       bob room bob_basic alice _))).
  repeat constructor.
Defined.

End CursorStoreRuns.

(* --------------------------------------------------------------------- *)
(** ** The current user: reading cursors *)
(* --------------------------------------------------------------------- *)

Section CurrentUserFacts.

Import CurrentUser.

Lemma sent_emit_log (l : level) (args : list log_arg) (w : world) :
  sent (trace (log l args w)) = sent (trace w).
Proof.
  unfold log, emit, sent. cbn [trace].
  rewrite filter_app. cbn. apply app_nil_r.
Qed.

Lemma typeCheck_ok (name ty : string) (v : value) :
  typeof v = ty -> typeCheck name ty v = Returned tt.
Proof. intros <-. unfold typeCheck. now rewrite String.eqb_refl. Qed.

Lemma typeCheck_cases (name ty : string) (v : value) :
  (typeof v = ty /\ typeCheck name ty v = Returned tt) \/
  (typeof v <> ty /\
   exists msg, msg <> "" /\ typeCheck name ty v = Thrown (TypeError msg)).
Proof.
  unfold typeCheck. destruct (String.eqb (typeof v) ty) eqn:Ety.
  - left. apply String.eqb_eq in Ety. auto.
  - right. apply String.eqb_neq in Ety. split; [exact Ety|].
    eexists. split; [|reflexivity]. cbn. discriminate.
Qed.

Lemma has_false_iff {A} (prop : value) (obj : gmap string A) :
  has prop obj = false <-> obj !! to_string prop = None.
Proof.
  unfold has. rewrite bool_decide_eq_false, <- eq_None_not_Some. reflexivity.
Qed.

(** C6. With [u] the user id the call reads (the local id when none is
    given): if [u] is not the local id and the room has no entry in
    [roomSubscriptions], [readCursor] throws a [TypeError] with a message
    and sends nothing; a well-typed call in that state throws the
    "Must be subscribed" error and logs it.  Every other well-typed call
    returns [cursorStore.getSync(u, roomId)] and changes nothing. *)
Theorem readCursor_requires_subscription (roomId userId : value) (w : world) :
  let u := default_param userId (VStr (id w)) in
  (u <> VStr (id w) ->
   roomSubscriptions w !! to_string roomId = None ->
   (exists msg,
       msg <> "" /\
       fst (readCursor roomId userId w) = Thrown (TypeError msg) /\
       sent (trace (snd (readCursor roomId userId w))) = sent (trace w)) /\
   (typeof roomId = "number" -> typeof u = "string" ->
    readCursor roomId userId w =
      (Thrown (readCursor_error roomId),
       log Error [LogErr (readCursor_error roomId)] w)))
  /\
  (typeof roomId = "number" -> typeof u = "string" ->
   ~ (u <> VStr (id w) /\ roomSubscriptions w !! to_string roomId = None) ->
   readCursor roomId userId w = (Returned (CursorStore.getSync u roomId w), w)).
Proof.
  intros u. split.
  - intros Hu Hsub.
    assert (Hguard : negb (strict_eq u (VStr (id w)))
                     && negb (has roomId (roomSubscriptions w)) = true).
    { apply andb_true_intro. split; apply negb_true_iff.
      - destruct (strict_eq u (VStr (id w))) eqn:Eu; [|reflexivity].
        apply strict_eq_str_r in Eu. contradiction.
      - now apply has_false_iff. }
    split.
    + unfold readCursor. fold u.
      destruct (typeCheck_cases "roomId" "number" roomId)
        as [[_ ->] | [_ (msg & Hmsg & ->)]]; [|eauto].
      destruct (typeCheck_cases "userId" "string" u)
        as [[_ ->] | [_ (msg & Hmsg & ->)]]; [|eauto].
      rewrite Hguard. eexists. split; [|split; [reflexivity|]].
      * cbn. discriminate.
      * cbn [snd]. apply sent_emit_log.
    + intros Hr Hs. unfold readCursor. fold u.
      rewrite (typeCheck_ok _ _ _ Hr), (typeCheck_ok _ _ _ Hs), Hguard.
      reflexivity.
  - intros Hr Hs Hnot. unfold readCursor. fold u.
    rewrite (typeCheck_ok _ _ _ Hr), (typeCheck_ok _ _ _ Hs).
    destruct (negb (strict_eq u (VStr (id w)))
              && negb (has roomId (roomSubscriptions w))) eqn:Eg; [|reflexivity].
    exfalso. apply Hnot. apply andb_prop in Eg. destruct Eg as [Eu Eh].
    apply negb_true_iff in Eu, Eh. split.
    + intros Heq. apply strict_eq_str_r in Heq. congruence.
    + now apply has_false_iff.
Qed.

Lemma readCursor_requires_subscription_witness :
  readCursor (VNum 1) (VStr "bob") Examples.alice =
    (Thrown (readCursor_error (VNum 1)),
     log Error [LogErr (readCursor_error (VNum 1))] Examples.alice)
  /\
  readCursor (VNum 1) VUndefined Examples.alice =
    (Returned (CursorStore.getSync (VStr "alice") (VNum 1) Examples.alice),
     Examples.alice).
Proof.
  split.
  - refine (proj2 (proj1
      (readCursor_requires_subscription (VNum 1) (VStr "bob") Examples.alice)
      _ _) _ _).
    + discriminate.
    + reflexivity.
    + reflexivity.
    + reflexivity.
  - refine (proj2
      (readCursor_requires_subscription (VNum 1) VUndefined Examples.alice)
      _ _ _).
    + reflexivity.
    + reflexivity.
    + intros [Hne _]. apply Hne. reflexivity.
Defined.

End CurrentUserFacts.

(* --------------------------------------------------------------------- *)
(** ** The current user: sending a message *)
(* --------------------------------------------------------------------- *)

Section SendMessageFacts.

Import CurrentUser.

Variable E : env.

Lemma isDataAttachment_malformed (attachment : value) :
  attachment <> VUndefined ->
  data_attachment attachment = false ->
  isDataAttachment attachment = Returned false \/
  exists msg, isDataAttachment attachment = Thrown (TypeError msg).
Proof.
  intros Hdef Hdata. unfold isDataAttachment.
  destruct (null_or_not attachment) as [-> | Hnull]; [right; cbn; eauto|].
  rewrite !get_prop_defined by assumption. cbn [cbind].
  unfold data_attachment in Hdata.
  destruct (strict_eq (member attachment "file") VUndefined); [now left|].
  destruct (strict_eq (member attachment "name") VUndefined); [now left|].
  cbn [orb negb andb] in *. unfold typeCheck.
  destruct (String.eqb (typeof (member attachment "file")) "object");
    [|right; cbn; eauto].
  destruct (String.eqb (typeof (member attachment "name")) "string");
    [discriminate | right; cbn; eauto].
Qed.

Lemma isLinkAttachment_malformed (attachment : value) :
  attachment <> VUndefined ->
  link_attachment attachment = false ->
  isLinkAttachment attachment = Returned false \/
  exists msg, isLinkAttachment attachment = Thrown (TypeError msg).
Proof.
  intros Hdef Hlink. unfold isLinkAttachment.
  destruct (null_or_not attachment) as [-> | Hnull]; [right; cbn; eauto|].
  rewrite !get_prop_defined by assumption. cbn [cbind].
  unfold link_attachment in Hlink.
  destruct (strict_eq (member attachment "link") VUndefined); [now left|].
  destruct (strict_eq (member attachment "type") VUndefined); [now left|].
  cbn [orb negb andb] in *. unfold typeCheck.
  destruct (String.eqb (typeof (member attachment "link")) "string");
    [|right; cbn; eauto].
  destruct (String.eqb (typeof (member attachment "type")) "string");
    [discriminate | right; cbn; eauto].
Qed.

(** The promise [sendMessage] starts from is rejected with a [TypeError],
    in the world as it was. *)
Lemma sendMessage_attachment_malformed (roomId attachment : value) (w : world) :
  attachment <> VUndefined ->
  data_attachment attachment = false ->
  link_attachment attachment = false ->
  exists msg,
    sendMessage_attachment E roomId attachment w = (Rejected (TypeError msg), w).
Proof.
  intros Hdef Hdata Hlink.
  assert (Hne : negb (strict_eq attachment VUndefined) = true).
  { apply negb_true_iff. destruct (strict_eq attachment VUndefined) eqn:Eu; [|reflexivity].
    apply strict_eq_undefined_r in Eu. contradiction. }
  unfold sendMessage_attachment, then_. rewrite Hne. cbn [and_then].
  destruct (isDataAttachment_malformed attachment Hdef Hdata) as [-> | [msg ->]];
    [|cbn; eauto].
  cbn [of_completion resolve].
  destruct (isLinkAttachment_malformed attachment Hdef Hlink) as [-> | [msg ->]];
    cbn; eauto.
Qed.

(** C8. When [text] is a string, [roomId] a number and [attachment] is
    defined but neither a data attachment nor a link attachment,
    [sendMessage] returns a promise rejected with a [TypeError]; the only
    thing it does is log that error: no request is sent. *)
Theorem sendMessage_malformed_attachment (text roomId attachment : value) (w : world) :
  typeof text = "string" ->
  typeof roomId = "number" ->
  attachment <> VUndefined ->
  data_attachment attachment = false ->
  link_attachment attachment = false ->
  exists msg,
    sendMessage E text roomId attachment w =
      (Returned (Rejected (TypeError msg)),
       log Warn [LogStr ("error sending message to room " +:+ to_string roomId +:+ ":");
                 LogErr (TypeError msg)] w) /\
    sent (trace (snd (sendMessage E text roomId attachment w))) = sent (trace w).
Proof.
  intros Ht Hr Hdef Hdata Hlink.
  destruct (sendMessage_attachment_malformed roomId attachment w Hdef Hdata Hlink)
    as [msg Hmsg].
  exists msg.
  assert (Hs : sendMessage E text roomId attachment w =
      (Returned (Rejected (TypeError msg)),
       log Warn [LogStr ("error sending message to room " +:+ to_string roomId +:+ ":");
                 LogErr (TypeError msg)] w)).
  { unfold sendMessage.
    rewrite (typeCheck_ok _ _ _ Ht), (typeCheck_ok _ _ _ Hr).
    unfold catch_, then_. rewrite Hmsg. reflexivity. }
  split; [exact Hs|].
  rewrite Hs. cbn [snd]. apply sent_emit_log.
Qed.

End SendMessageFacts.

Lemma sendMessage_malformed_attachment_witness :
  exists msg,
    fst (CurrentUser.sendMessage Examples.bob_cursor_server (VStr "hello") (VNum 1)
           (VObj [("file", VStr "cat.png"); ("name", VStr "cat")]) Examples.alice)
    = Returned (Rejected (TypeError msg)) /\
    sent (trace (snd (CurrentUser.sendMessage Examples.bob_cursor_server
           (VStr "hello") (VNum 1)
           (VObj [("file", VStr "cat.png"); ("name", VStr "cat")]) Examples.alice)))
    = [].
Proof.
  destruct (sendMessage_malformed_attachment Examples.bob_cursor_server
              (VStr "hello") (VNum 1)
              (VObj [("file", VStr "cat.png"); ("name", VStr "cat")]) Examples.alice)
    as [msg [H1 H2]]; try reflexivity; try discriminate.
  exists msg. rewrite H1. split; [reflexivity | exact H2].
Defined.

(* --------------------------------------------------------------------- *)
(** ** The current user: filtering cursor events *)
(* --------------------------------------------------------------------- *)

Section CursorHookFacts.

Import CurrentUser.

(** C4. In the cursor subscription of a room, with local user id [L]: a
    read-cursor event (type 0) of user [L] never reaches the caller's
    [onNewReadCursor], whatever the hooks; a read-cursor event of any other
    user calls the supplied hook exactly once, with the cursor. *)
Theorem subscribeToRoom_filters_own_cursor
  (hooks : hooks) (cursor userId : value) (w : world) :
  get_prop cursor "type" = Returned (VNum 0) ->
  get_prop cursor "userId" = Returned userId ->
  (userId = VStr (id w) ->
   subscribeToRoom_newCursor hooks cursor w = (Returned tt, w)) /\
  (userId <> VStr (id w) ->
   forall f, onNewReadCursor hooks = Some f ->
     subscribeToRoom_newCursor hooks cursor w = (Returned tt, emit [HookCalled f cursor] w) /\
     trace (snd (subscribeToRoom_newCursor hooks cursor w))
     = trace w ++ [HookCalled f cursor]).
Proof.
  intros Htype Huser. split.
  - intros ->. unfold subscribeToRoom_newCursor.
    destruct (onNewReadCursor hooks); [|reflexivity].
    rewrite Htype, Huser. cbn [strict_eq]. rewrite Z.eqb_refl, String.eqb_refl.
    reflexivity.
  - intros Hother f Hf.
    assert (Hs : subscribeToRoom_newCursor hooks cursor w
                 = (Returned tt, emit [HookCalled f cursor] w)).
    { unfold subscribeToRoom_newCursor. rewrite Hf, Htype, Huser.
      cbn [strict_eq]. rewrite Z.eqb_refl.
      destruct (strict_eq userId (VStr (id w))) eqn:Eu; [|reflexivity].
      apply strict_eq_str_r in Eu. contradiction. }
    split; [exact Hs|]. rewrite Hs. reflexivity.
Qed.

Lemma subscribeToRoom_filters_own_cursor_witness :
  subscribeToRoom_newCursor Examples.listening (VCursor Examples.alice_basic) Examples.alice
  = (Returned tt, Examples.alice)
  /\
  trace (snd (subscribeToRoom_newCursor Examples.listening
                (VCursor Examples.bob_basic) Examples.alice))
  = [HookCalled 0 (VCursor Examples.bob_basic)].
Proof.
  split.
  - refine (proj1 (subscribeToRoom_filters_own_cursor Examples.listening
                     (VCursor Examples.alice_basic) (VStr "alice") Examples.alice _ _) _);
      reflexivity.
  - refine (proj2 (proj2 (subscribeToRoom_filters_own_cursor Examples.listening
                     (VCursor Examples.bob_basic) (VStr "bob") Examples.alice _ _) _ 0 _));
      try reflexivity.
    discriminate.
Defined.

(** Membership, as [isMemberOf] computes it: some room of the room store
    has an id equal to the given one. *)
Lemma isMemberOf_true (roomId : value) (w : world) :
  isMemberOf roomId w = true <->
  exists (k : string) (r : list (string * value)),
    roomStore w !! k = Some r /\ equals (field_or_undefined "id" r) roomId = true.
Proof.
  unfold isMemberOf, contains, rooms, roomStore_snapshot.
  rewrite existsb_exists. split.
  - intros (x & Hin & Heq).
    apply in_map_iff in Hin. destruct Hin as (r & <- & Hr).
    apply list_elem_of_In in Hr. apply list_elem_of_fmap in Hr.
    destruct Hr as ([k r'] & -> & Hkr). apply elem_of_map_to_list in Hkr.
    exists k, r'. auto.
  - intros (k & r & Hk & Heq).
    exists (field_or_undefined "id" r). split; [|exact Heq].
    apply in_map_iff. exists r. split; [reflexivity|].
    apply list_elem_of_In. apply list_elem_of_fmap.
    exists (k, r). split; [reflexivity|]. now apply elem_of_map_to_list.
Qed.

(** C3 (as amended). The cursor subscription of the local user calls the
    caller's [onNewReadCursor], once and with the cursor, exactly when the
    hook is supplied, the cursor's type is 0 and the cursor's room is one of
    the local user's rooms; in every other case it does nothing.  The
    cursor's user id plays no part. *)
Theorem establishCursorSubscription_filters_by_membership
  (hooks : hooks) (basic : value) (w : world) :
  let cursor := VCursor basic in
  let joined :=
    exists (k : string) (r : list (string * value)),
      roomStore w !! k = Some r /\
      equals (field_or_undefined "id" r) (member cursor "roomId") = true in
  (exists f,
      onNewReadCursor hooks = Some f /\
      member cursor "type" = VNum 0 /\
      joined /\
      establishCursorSubscription_newCursor hooks cursor w
      = (Returned tt, emit [HookCalled f cursor] w))
  \/
  ((onNewReadCursor hooks = None \/ member cursor "type" <> VNum 0 \/ ~ joined) /\
   establishCursorSubscription_newCursor hooks cursor w = (Returned tt, w)).
Proof.
  intros cursor joined. unfold establishCursorSubscription_newCursor.
  destruct (onNewReadCursor hooks) as [f|]; [|right; auto].
  change (get_prop cursor "type") with (Returned (member cursor "type")).
  change (get_prop cursor "roomId") with (Returned (member cursor "roomId")).
  cbv beta iota.
  destruct (strict_eq (member cursor "type") (VNum 0)) eqn:Et.
  - apply strict_eq_num_r in Et.
    destruct (isMemberOf (member cursor "roomId") w) eqn:Em.
    + left. exists f. apply isMemberOf_true in Em.
      split; [reflexivity|]. split; [exact Et|]. split; [exact Em | reflexivity].
    + right. split; [|reflexivity]. right. right. intros Hj.
      apply isMemberOf_true in Hj. congruence.
  - right. split; [|reflexivity]. right. left. intros Heq.
    apply strict_eq_num_r in Heq. congruence.
Qed.

(** C3 (as stated) fails on the local user's own read cursor in a room she
    is a member of: the user-scoped subscription passes it to the hook,
    where the room-scoped one drops it. *)
Lemma establishCursorSubscription_forwards_own_cursor :
  ~ hook_only_for_others Examples.listening (VCursor Examples.alice_basic) Examples.alice.
Proof.
  intros H. destruct (H 0) as [_ Hne].
  - vm_compute. reflexivity.
  - apply Hne. reflexivity.
Qed.

End CursorHookFacts.

(* --------------------------------------------------------------------- *)
(** ** The current user: bootstrapping the user store *)
(* --------------------------------------------------------------------- *)

Section InitializeUserStoreFacts.

Import CurrentUser.

Variable E : env.

Lemma ready_userStore (w : world) :
  Store.initialized (userStore (ready w)) = true /\
  Store.entries (userStore (ready w)) = Store.entries (userStore w) /\
  trace (ready w) = trace w.
Proof.
  unfold ready, Store.initialize. cbn.
  repeat split. apply (right_id_L ∅ (∪)).
Qed.

(** C7. Whatever [fetchMissingUsers] does with the user ids of the cached
    rooms: if it resolves, or if it rejects, [initializeUserStore] resolves;
    a rejection is logged as a warning and goes no further; in both cases
    the user store is then marked initialized, its entries as the attempt
    left them.  While the attempt has not settled nothing else happens: the
    store is not touched, the operation is pending. *)
Theorem initializeUserStore_swallows_failure (w : world) :
  let attempt :=
    userStore_fetchMissingUsers E (uniq (chain_userIds (rooms w))) w in
  (forall v, fst attempt = Resolved v ->
     initializeUserStore E w = (Resolved VUndefined, ready (snd attempt))) /\
  (forall err, fst attempt = Rejected err ->
     initializeUserStore E w =
       (Resolved VUndefined,
        ready (log Warn [LogStr "error fetching initial user information:";
                         LogErr err] (snd attempt)))) /\
  (fst attempt = Pending ->
     initializeUserStore E w = (Pending, snd attempt)) /\
  (fst attempt <> Pending ->
     exists w',
       initializeUserStore E w = (Resolved VUndefined, w') /\
       Store.initialized (userStore w') = true /\
       Store.entries (userStore w') = Store.entries (userStore (snd attempt))).
Proof.
  intros attempt.
  assert (Hunfold : initializeUserStore E w =
    match attempt with
    | (Resolved _, w1) => (Resolved VUndefined, ready w1)
    | (Rejected err, w1) =>
        (Resolved VUndefined,
         ready (log Warn [LogStr "error fetching initial user information:";
                          LogErr err] w1))
    | (Pending, w1) => (Pending, w1)
    end).
  { unfold initializeUserStore, then_, catch_. fold attempt.
    destruct attempt as [[v|err|] w1]; reflexivity. }
  rewrite Hunfold. destruct attempt as [[v|err|] w1]; cbn [fst snd].
  - split; [reflexivity|]. split; [discriminate|]. split; [discriminate|].
    intros _. eexists. split; [reflexivity|].
    destruct (ready_userStore w1) as (Hi & He & _). auto.
  - split; [discriminate|]. split; [intros ? [= <-]; reflexivity|].
    split; [discriminate|].
    intros _. eexists. split; [reflexivity|].
    destruct (ready_userStore
                (log Warn [LogStr "error fetching initial user information:";
                           LogErr err] w1)) as (Hi & He & _).
    auto.
  - split; [discriminate|]. split; [discriminate|]. split; [reflexivity|].
    intros H. now contradiction H.
Qed.

End InitializeUserStoreFacts.

Lemma initializeUserStore_swallows_failure_witness :
  exists w',
    CurrentUser.initializeUserStore Examples.users_down_server Examples.alice
    = (Resolved VUndefined, w') /\
    Store.initialized (userStore w') = true.
Proof.
  destruct (proj2 (proj2 (proj2
    (initializeUserStore_swallows_failure Examples.users_down_server Examples.alice))))
    as (w' & Hw & Hi & _).
  - vm_compute. discriminate.
  - exists w'. auto.
Defined.

(* ===================================================================== *)
(** * Further properties of the code *)
(* ===================================================================== *)

(* --------------------------------------------------------------------- *)
(** ** parsers.js on payloads that are not objects *)
(* --------------------------------------------------------------------- *)

Section ParserEdges.

Import Parsers.

(** X1. Each parser returns a record for every payload other than [null]
    and [undefined] (an object, a string, a number, an array), and throws a
    [TypeError] on [null] and on [undefined]. *)
Theorem parsers_throw_only_on_nullish (data : value) :
  (data = VNull \/ data = VUndefined ->
   exists m1 m2 m3 m4,
     parseBasicRoom data = Thrown (TypeError m1) /\
     parseUser data = Thrown (TypeError m2) /\
     parsePresence data = Thrown (TypeError m3) /\
     parseBasicMessage data = Thrown (TypeError m4)) /\
  (data <> VNull -> data <> VUndefined ->
   exists r1 r2 r3 r4,
     parseBasicRoom data = Returned (VObj r1) /\
     parseUser data = Returned (VObj r2) /\
     parsePresence data = Returned (VObj r3) /\
     parseBasicMessage data = Returned (VObj r4)).
Proof.
  split.
  - intros [-> | ->]; cbn; repeat eexists.
  - intros Hnull Hundef.
    unfold parseBasicRoom, parseUser, parsePresence, parseBasicMessage.
    rewrite !get_prop_defined by assumption. cbn [cbind].
    repeat eexists.
Qed.

Lemma parsers_throw_only_on_nullish_witness :
  (exists m, parsePresence VNull = Thrown (TypeError m)) /\
  (exists r, parsePresence (VStr "online") = Returned (VObj r)).
Proof.
  split.
  - destruct (proj1 (parsers_throw_only_on_nullish VNull) (or_introl eq_refl))
      as (m1 & m2 & m3 & m4 & _ & _ & H & _).
    exists m3. exact H.
  - destruct (proj2 (parsers_throw_only_on_nullish (VStr "online")))
      as (r1 & r2 & r3 & r4 & _ & _ & H & _); try discriminate.
    exists r3. exact H.
Defined.

End ParserEdges.

(* --------------------------------------------------------------------- *)
(** ** cursor-store.js: the point fetch *)
(* --------------------------------------------------------------------- *)

Section FetchFacts.

Variable E : env.

(** X2. Whatever the transport answers and whatever the parsers do,
    [fetchBasicCursor] sends exactly one request, the GET of the cursor,
    and writes none of the stores. *)
Theorem fetchBasicCursor_sends_once (u r : value) (w : world) :
  let w' := snd (CursorStore.fetchBasicCursor E u r w) in
  sent (trace w') = sent (trace w) ++ [Sent (CursorStore.cursor_request E u r)] /\
  cursorStore w' = cursorStore w /\
  userStore w' = userStore w /\
  roomStore w' = roomStore w /\
  roomSubscriptions w' = roomSubscriptions w.
Proof.
  unfold CursorStore.fetchBasicCursor, catch_, then_, instance_request, sent.
  destruct (respond E _ _) as [res|e|]; cbn [fst snd].
  - destruct (JSON_parse E res) as [data|e]; cbn.
    + destruct (truthy data); cbn.
      * destruct (parseBasicCursor E data); cbn;
          rewrite ?filter_app; cbn; rewrite ?app_nil_r; auto.
      * rewrite filter_app. auto.
    + rewrite !filter_app. cbn. rewrite app_nil_r. auto.
  - cbn. rewrite !filter_app. cbn. rewrite app_nil_r. auto.
  - cbn. rewrite filter_app. auto.
Qed.

Lemma fetch_rejected (u r : value) (w : world) (e : error) :
  respond E (trace w) (CursorStore.cursor_request E u r) = Rejected e ->
  CursorStore.fetchBasicCursor E u r w =
    (Rejected e,
     log Warn [LogStr "error fetching cursor:"; LogErr e]
       (emit [Sent (CursorStore.cursor_request E u r)] w)).
Proof.
  intros He.
  unfold CursorStore.fetchBasicCursor, catch_, then_, instance_request.
  now rewrite He.
Qed.

Lemma fetch_parsed (u r : value) (w : world) (body : string) (data basic : value) :
  respond E (trace w) (CursorStore.cursor_request E u r) = Resolved body ->
  JSON_parse E body = Returned data ->
  truthy data = true ->
  parseBasicCursor E data = Returned basic ->
  CursorStore.fetchBasicCursor E u r w
  = (Resolved basic, emit [Sent (CursorStore.cursor_request E u r)] w).
Proof.
  intros Hres Hparse Hdata Hbasic.
  unfold CursorStore.fetchBasicCursor, catch_, then_, instance_request.
  rewrite Hres. cbn [of_completion cbind]. rewrite Hparse. cbn [cbind].
  now rewrite Hdata, Hbasic.
Qed.

(** X3. When the transport rejects the request, [fetchBasicCursor] logs
    one warning that carries the error and rejects with that same error. *)
Theorem fetchBasicCursor_transport_failure (u r : value) (w : world) (e : error) :
  respond E (trace w) (CursorStore.cursor_request E u r) = Rejected e ->
  CursorStore.fetchBasicCursor E u r w =
    (Rejected e,
     log Warn [LogStr "error fetching cursor:"; LogErr e]
       (emit [Sent (CursorStore.cursor_request E u r)] w)).
Proof. apply fetch_rejected. Qed.

(** X4. When the response decodes to a falsy value ([null], [false], [0],
    the empty string), [fetchBasicCursor] resolves with [undefined] and the
    cursor parser is not consulted; when it decodes to anything else the
    result is what [parseBasicCursor] returns, and a throw of the parser is
    logged and becomes the rejection. *)
Theorem fetchBasicCursor_decodes (u r : value) (w : world) (body : string) (data : value) :
  respond E (trace w) (CursorStore.cursor_request E u r) = Resolved body ->
  JSON_parse E body = Returned data ->
  let w1 := emit [Sent (CursorStore.cursor_request E u r)] w in
  (truthy data = false ->
   CursorStore.fetchBasicCursor E u r w = (Resolved VUndefined, w1)) /\
  (truthy data = true ->
   forall basic, parseBasicCursor E data = Returned basic ->
   CursorStore.fetchBasicCursor E u r w = (Resolved basic, w1)) /\
  (truthy data = true ->
   forall err, parseBasicCursor E data = Thrown err ->
   CursorStore.fetchBasicCursor E u r w =
     (Rejected err, log Warn [LogStr "error fetching cursor:"; LogErr err] w1)).
Proof.
  intros Hres Hparse w1.
  unfold CursorStore.fetchBasicCursor, catch_, then_, instance_request.
  rewrite Hres. cbn [of_completion cbind]. rewrite Hparse. cbn [cbind].
  repeat split.
  - intros ->. reflexivity.
  - intros -> basic ->. reflexivity.
  - intros -> err ->. reflexivity.
Qed.

End FetchFacts.

Lemma fetchBasicCursor_transport_failure_witness :
  CursorStore.fetchBasicCursor MoreExamples.down_server Examples.bob Examples.room
    Examples.alice
  = (Rejected MoreExamples.outage,
     log Warn [LogStr "error fetching cursor:"; LogErr MoreExamples.outage]
       (emit [Sent (CursorStore.cursor_request MoreExamples.down_server
                      Examples.bob Examples.room)] Examples.alice)).
Proof.
  apply (fetchBasicCursor_transport_failure MoreExamples.down_server).
  reflexivity.
Defined.

Lemma fetchBasicCursor_decodes_witness :
  CursorStore.fetchBasicCursor Examples.no_cursor_server Examples.bob Examples.room
    Examples.alice
  = (Resolved VUndefined,
     emit [Sent (CursorStore.cursor_request Examples.no_cursor_server
                   Examples.bob Examples.room)] Examples.alice).
Proof.
  refine (proj1 (fetchBasicCursor_decodes Examples.no_cursor_server
                   Examples.bob Examples.room Examples.alice "null" VNull _ _) _);
    reflexivity.
Defined.

(* --------------------------------------------------------------------- *)
(** ** cursor-store.js: keys *)
(* --------------------------------------------------------------------- *)

Section KeyFacts.

Import Keys.

#[local] Arguments String.append : simpl nomatch.

Lemma slash_free_app (a b : string) :
  slash_free (a +:+ b) = slash_free a && slash_free b.
Proof.
  induction a as [|c a IH]; [reflexivity|].
  cbn [String.append slash_free]. rewrite IH. now rewrite andb_assoc.
Qed.

Lemma pretty_N_char_slash_free (x : N) (s : string) :
  slash_free s = true -> slash_free (String (pretty_N_char x) s) = true.
Proof.
  intros Hs. cbn. rewrite Hs, andb_true_r.
  unfold pretty_N_char. repeat case_match; reflexivity.
Qed.

Lemma pretty_N_go_slash_free (x : N) (s : string) :
  slash_free s = true -> slash_free (pretty_N_go x s) = true.
Proof.
  revert s. induction (N.lt_wf_0 x) as [x _ IH]. intros s Hs.
  destruct (decide (x = 0)%N) as [-> | Hx].
  - now rewrite pretty_N_go_0.
  - rewrite pretty_N_go_step by lia.
    apply IH.
    + apply N.div_lt; lia.
    + now apply pretty_N_char_slash_free.
Qed.

Lemma pretty_Z_slash_free (n : Z) : slash_free (pretty n) = true.
Proof.
  assert (HN : forall p : positive, slash_free (pretty p) = true).
  { intros p. unfold pretty, pretty_positive, pretty, pretty_N.
    case_decide; [reflexivity|]. now apply pretty_N_go_slash_free. }
  destruct n as [|p|p]; unfold pretty, pretty_Z; [reflexivity | apply HN |].
  rewrite slash_free_app. cbn. apply HN.
Qed.

(** Two strings cut at their last ["/"]. *)
Lemma split_at_last_slash (a b x y : string) :
  slash_free x = true -> slash_free y = true ->
  a +:+ "/" +:+ x = b +:+ "/" +:+ y -> a = b /\ x = y.
Proof.
  intros Hx Hy. revert b.
  induction a as [|c a IH]; intros [|d b] Heq; cbn in Heq.
  - injection Heq as ->. auto.
  - injection Heq as <- ->.
    rewrite slash_free_app in Hx. cbn in Hx.
    rewrite andb_false_r in Hx. discriminate.
  - injection Heq as -> <-.
    rewrite slash_free_app in Hy. cbn in Hy.
    rewrite andb_false_r in Hy. discriminate.
  - injection Heq as -> Heq. destruct (IH b Heq) as [-> ->]. auto.
Qed.

Lemma key_separates (u u' : string) (n n' : Z) :
  CursorStore.key (VStr u) (VNum n) = CursorStore.key (VStr u') (VNum n') ->
  u = u' /\ n = n'.
Proof.
  unfold CursorStore.key. cbn [to_string]. intros Heq.
  apply split_at_last_slash in Heq; try apply pretty_Z_slash_free.
  destruct Heq as [-> Hn]. split; [reflexivity|].
  now apply (inj pretty) in Hn.
Qed.

Variable E : env.

(** X5. For user ids that are strings and room ids that are numbers the
    keys of the cursor store never collide: [set] for one user and room
    leaves what [getSync] returns for every other user or room as it was,
    whatever [fetchMissingUsers] does. *)
Theorem set_leaves_other_cursors
  (u u' : string) (n n' : Z) (c : value) (w : world) :
  u <> u' \/ n <> n' ->
  CursorStore.getSync (VStr u') (VNum n')
    (snd (CursorStore.set E (VStr u) (VNum n) c w))
  = CursorStore.getSync (VStr u') (VNum n') w.
Proof.
  intros Hne. unfold CursorStore.getSync, Store.getSync.
  rewrite set_cursorStore, lookup_set.
  rewrite decide_False; [reflexivity|].
  intros Hk. apply key_separates in Hk. destruct Hk, Hne; congruence.
Qed.

(** X6. [set] writes the decorated cursor under the key before anything
    else and whatever happens next: [getSync] returns it afterwards even
    when [fetchMissingUsers] rejects, in which case the promise of [set] is
    rejected with the same error. *)
Theorem set_stores_before_users (u r c : value) (w : world) :
  let users :=
    userStore_fetchMissingUsers E [u]
      (with_cursorStore
         (Store.set (CursorStore.key u r) (CursorStore.decorate c) (cursorStore w)) w) in
  CursorStore.getSync u r (snd (CursorStore.set E u r c w)) = CursorStore.decorate c /\
  snd (CursorStore.set E u r c w) = snd users /\
  (forall e, fst users = Rejected e -> fst (CursorStore.set E u r c w) = Rejected e) /\
  (forall d, fst users = Resolved d ->
     fst (CursorStore.set E u r c w)
     = Resolved (VArr [set_done E (CursorStore.decorate c); d])).
Proof.
  intros users. split; [|split; [|split]].
  - unfold CursorStore.getSync, Store.getSync.
    rewrite set_cursorStore, lookup_set. now rewrite decide_True.
  - reflexivity.
  - intros e He. unfold CursorStore.set, promise_all2, CursorStore.store_set.
    cbn [fst snd]. fold users. now rewrite He.
  - intros d Hd. unfold CursorStore.set, promise_all2, CursorStore.store_set.
    cbn [fst snd]. fold users. now rewrite Hd.
Qed.

End KeyFacts.

Lemma set_leaves_other_cursors_witness :
  CursorStore.getSync (VStr "bob") (VNum 2)
    (snd (CursorStore.set Examples.bob_cursor_server (VStr "bob") (VNum 1)
            Examples.bob_basic Examples.alice_after_get))
  = CursorStore.getSync (VStr "bob") (VNum 2) Examples.alice_after_get.
Proof.
  apply set_leaves_other_cursors. right. discriminate.
Defined.

Lemma set_stores_before_users_witness :
  CursorStore.getSync Examples.bob Examples.room
    (snd (CursorStore.set Examples.users_down_server Examples.bob Examples.room
            Examples.bob_basic Examples.alice))
  = VCursor Examples.bob_basic /\
  fst (CursorStore.set Examples.users_down_server Examples.bob Examples.room
         Examples.bob_basic Examples.alice)
  = Rejected (OtherError (VStr "directory unavailable")).
Proof.
  destruct (set_stores_before_users Examples.users_down_server Examples.bob
              Examples.room Examples.bob_basic Examples.alice) as (H1 & _ & H3 & _).
  split; [exact H1|]. apply H3. reflexivity.
Defined.

(* --------------------------------------------------------------------- *)
(** ** cursor-store.js: fetch on miss *)
(* --------------------------------------------------------------------- *)

Section GetFacts.

Variable E : env.

(** X7. A failed fetch is not remembered.  When no cursor is stored under
    the key and the transport rejects the request, [get] rejects with the
    transport's error, logs it, and leaves the cursor store as it was: the
    next [get] sends the request again. *)
Theorem get_failed_fetch_not_cached (u r : value) (w : world) (e : error) :
  Store.initialized (cursorStore w) = true ->
  truthy (CursorStore.getSync u r w) = false ->
  respond E (trace w) (CursorStore.cursor_request E u r) = Rejected e ->
  let w' := snd (CursorStore.get E u r w) in
  fst (CursorStore.get E u r w) = Rejected e /\
  trace w' = trace w ++ [Sent (CursorStore.cursor_request E u r);
                         Logged Warn [LogStr "error fetching cursor:"; LogErr e]] /\
  cursorStore w' = cursorStore w /\
  exists evs,
    trace (snd (CursorStore.get E u r w'))
    = trace w' ++ Sent (CursorStore.cursor_request E u r) :: evs.
Proof.
  intros Hi Hstored He w'.
  assert (Hget : CursorStore.get E u r w =
            (Rejected e,
             log Warn [LogStr "error fetching cursor:"; LogErr e]
               (emit [Sent (CursorStore.cursor_request E u r)] w))).
  { rewrite get_unfold. unfold Store.get. rewrite Hi.
    fold (CursorStore.getSync u r w). rewrite Hstored.
    now rewrite (fetch_rejected E u r w e He). }
  subst w'. rewrite Hget. cbn [fst snd].
  split; [reflexivity|]. split.
  { cbn. now rewrite <- app_assoc. }
  split; [reflexivity|].
  set (w1 := log Warn _ _).
  assert (Hi1 : Store.initialized (cursorStore w1) = true) by exact Hi.
  assert (Hs1 : truthy (CursorStore.getSync u r w1) = false) by exact Hstored.
  rewrite get_unfold. unfold Store.get. rewrite Hi1.
  fold (CursorStore.getSync u r w1). rewrite Hs1.
  destruct (fetchBasicCursor_trace E u r w1) as [evs Hevs].
  destruct (CursorStore.fetchBasicCursor E u r w1) as [[c|e'|] w2];
    cbn [snd] in *; eauto.
  destruct (set_trace E u r c w2) as [evs' Hevs'].
  exists (evs ++ evs'). rewrite Hevs', Hevs, <- app_assoc. reflexivity.
Qed.

(** X8. A fetched cursor is stored whatever becomes of the promise.  When
    no cursor is stored under the key and the response decodes to a cursor,
    [getSync] returns the decorated cursor after the [get], even when
    [fetchMissingUsers] fails and the [get] is rejected for it. *)
Theorem get_miss_stores_cursor
  (u r : value) (w : world) (body : string) (data basic : value) :
  Store.initialized (cursorStore w) = true ->
  truthy (CursorStore.getSync u r w) = false ->
  respond E (trace w) (CursorStore.cursor_request E u r) = Resolved body ->
  JSON_parse E body = Returned data ->
  truthy data = true ->
  parseBasicCursor E data = Returned basic ->
  CursorStore.getSync u r (snd (CursorStore.get E u r w)) = CursorStore.decorate basic /\
  CursorStore.get E u r w
  = CursorStore.set E u r basic (emit [Sent (CursorStore.cursor_request E u r)] w).
Proof.
  intros Hi Hstored Hres Hparse Hdata Hbasic.
  pose proof (fetch_parsed E u r w body data basic Hres Hparse Hdata Hbasic) as Hok.
  assert (Hget : CursorStore.get E u r w
                 = CursorStore.set E u r basic
                     (emit [Sent (CursorStore.cursor_request E u r)] w)).
  { rewrite get_unfold. unfold Store.get. rewrite Hi.
    fold (CursorStore.getSync u r w). now rewrite Hstored, Hok. }
  split; [|exact Hget].
  rewrite Hget. unfold CursorStore.getSync, Store.getSync.
  rewrite set_cursorStore, lookup_set. now rewrite decide_True.
Qed.

End GetFacts.

Lemma get_failed_fetch_not_cached_witness :
  fst (CursorStore.get MoreExamples.down_server Examples.bob Examples.room Examples.alice)
  = Rejected MoreExamples.outage /\
  cursorStore
    (snd (CursorStore.get MoreExamples.down_server Examples.bob Examples.room
            Examples.alice))
  = cursorStore Examples.alice.
Proof.
  destruct (get_failed_fetch_not_cached MoreExamples.down_server Examples.bob
              Examples.room Examples.alice MoreExamples.outage)
    as (H1 & _ & H3 & _); try reflexivity.
  split; [exact H1 | exact H3].
Defined.

Lemma get_miss_stores_cursor_witness :
  CursorStore.getSync Examples.bob Examples.room
    (snd (CursorStore.get Examples.bob_cursor_server Examples.bob Examples.room
            Examples.alice))
  = VCursor Examples.bob_basic.
Proof.
  refine (proj1 (get_miss_stores_cursor Examples.bob_cursor_server Examples.bob
                   Examples.room Examples.alice "{bob}" Examples.bob_payload
                   Examples.bob_basic _ _ _ _ _ _)); reflexivity.
Defined.

(* --------------------------------------------------------------------- *)
(** ** current-user.js: the shape of an attachment *)
(* --------------------------------------------------------------------- *)

Section AttachmentFacts.

Import CurrentUser.

Lemma member_defined_not_nullish (a : value) (k : string) :
  member a k <> VUndefined -> a <> VUndefined /\ a <> VNull.
Proof. destruct a; cbn; intros H; split; congruence. Qed.

Lemma strict_eq_undefined_false (v : value) :
  strict_eq v VUndefined = false <-> v <> VUndefined.
Proof.
  split.
  - intros H Hv. apply strict_eq_undefined_r in Hv. congruence.
  - intros H. destruct (strict_eq v VUndefined) eqn:Ev; [|reflexivity].
    apply strict_eq_undefined_r in Ev. contradiction.
Qed.

Lemma isDataAttachment_unfold (a : value) :
  a <> VUndefined -> a <> VNull ->
  isDataAttachment a =
    if strict_eq (member a "file") VUndefined || strict_eq (member a "name") VUndefined
    then Returned false
    else
      let! file_checked := typeCheck "attachment.file" "object" (member a "file") in
      let! name_checked := typeCheck "attachment.name" "string" (member a "name") in
      Returned true.
Proof.
  intros Hu Hn. unfold isDataAttachment.
  rewrite !get_prop_defined by assumption. reflexivity.
Qed.

Lemma isLinkAttachment_unfold (a : value) :
  a <> VUndefined -> a <> VNull ->
  isLinkAttachment a =
    if strict_eq (member a "link") VUndefined || strict_eq (member a "type") VUndefined
    then Returned false
    else
      let! link_checked := typeCheck "attachment.link" "string" (member a "link") in
      let! type_checked := typeCheck "attachment.type" "string" (member a "type") in
      Returned true.
Proof.
  intros Hu Hn. unfold isLinkAttachment.
  rewrite !get_prop_defined by assumption. reflexivity.
Qed.


(** X9. [isDataAttachment] returns [true] exactly for an attachment whose
    [file] and [name] are both present with [typeof file] ['object'] (so a
    [null] file passes) and [name] a string; it returns [false] exactly
    when one of the two is missing, whatever the other is; in the cases
    left, both present and one of the wrong type, and for a [null]
    attachment, it throws a [TypeError]. *)
Theorem isDataAttachment_decides (a : value) :
  (isDataAttachment a = Returned true <-> data_attachment a = true) /\
  (isDataAttachment a = Returned false <->
   a <> VUndefined /\ a <> VNull /\
   (member a "file" = VUndefined \/ member a "name" = VUndefined)) /\
  (isDataAttachment a = Returned true \/
   isDataAttachment a = Returned false \/
   exists msg, isDataAttachment a = Thrown (TypeError msg)).
Proof.
  destruct (null_or_not a) as [-> | Hnull].
  { cbn. repeat split; try discriminate; try tauto; eauto. }
  assert (Hcases : a = VUndefined \/ a <> VUndefined)
    by (destruct a; auto; right; discriminate).
  destruct Hcases as [-> | Hundef].
  { cbn. repeat split; try discriminate; try tauto; eauto. }
  rewrite isDataAttachment_unfold by assumption.
  unfold data_attachment, typeCheck.
  destruct (strict_eq (member a "file") VUndefined) eqn:Ef;
    destruct (strict_eq (member a "name") VUndefined) eqn:En;
    cbn [orb negb andb];
    try apply strict_eq_undefined_r in Ef;
    try apply strict_eq_undefined_r in En.
  - repeat split; try discriminate; auto.
  - repeat split; try discriminate; auto.
  - repeat split; try discriminate; auto.
  - apply strict_eq_undefined_false in Ef, En.
    destruct (String.eqb (typeof (member a "file")) "object");
      destruct (String.eqb (typeof (member a "name")) "string");
      cbn [cbind andb]; repeat split; try discriminate; auto;
      try (intros (_ & _ & [H | H]); contradiction); eauto.
Qed.

End AttachmentFacts.

(* --------------------------------------------------------------------- *)
(** ** current-user.js: what [sendMessage] sends *)
(* --------------------------------------------------------------------- *)

Section SendMessagePaths.

Import CurrentUser CurrentUserRequests.

Variable E : env.

Lemma sendMessage_well_typed (text roomId a : value) (w : world) :
  typeof text = "string" -> typeof roomId = "number" ->
  sendMessage E text roomId a w =
    (Returned (fst (message_chain E text roomId (sendMessage_attachment E roomId a) w)),
     snd (message_chain E text roomId (sendMessage_attachment E roomId a) w)).
Proof.
  intros Ht Hr. unfold sendMessage.
  now rewrite (typeCheck_ok _ _ _ Ht), (typeCheck_ok _ _ _ Hr).
Qed.


(** Once the attachment is resolved, the chain sends the message request
    and nothing else. *)
Lemma message_chain_resolved
  (text roomId a : value) (attachment : promise value) (w w1 : world) :
  attachment w = (Resolved a, w1) ->
  sent (trace (snd (message_chain E text roomId attachment w)))
  = sent (trace w1) ++ [Sent (sendMessage_request text roomId a)].
Proof.
  intros Ha. unfold message_chain, catch_, then_, instance_request.
  rewrite Ha.
  destruct (respond E _ _) as [res|e|]; cbn [fst snd].
  - destruct (JSON_parse E res) as [parsed|e]; cbn [cbind of_completion].
    + destruct (get_prop parsed "message_id"); cbn [of_completion resolve reject snd];
        unfold sendMessage_warning, sent, emit; cbn [trace];
        rewrite ?filter_app; cbn; now rewrite ?app_nil_r.
    + unfold sendMessage_warning, sent, emit; cbn [reject snd trace].
      rewrite !filter_app. cbn. now rewrite app_nil_r.
  - unfold sendMessage_warning, sent, emit; cbn [snd trace].
    rewrite !filter_app. cbn. now rewrite app_nil_r.
  - unfold sent, emit; cbn [snd trace]. now rewrite filter_app.
Qed.

(** When the attachment is rejected, the chain logs the error and sends
    nothing. *)
Lemma message_chain_rejected
  (text roomId : value) (attachment : promise value) (w w1 : world) (e : error) :
  attachment w = (Rejected e, w1) ->
  message_chain E text roomId attachment w
  = (Rejected e, emit [sendMessage_warning roomId e] w1).
Proof.
  intros Ha. unfold message_chain, catch_, then_. now rewrite Ha.
Qed.

(** X10. A [text] that is not a string or a [roomId] that is not a number
    makes [sendMessage] throw a [TypeError] at once: nothing is sent and
    nothing is logged. *)
Theorem sendMessage_checks_arguments (text roomId attachment : value) (w : world) :
  typeof text <> "string" \/ typeof roomId <> "number" ->
  exists msg,
    sendMessage E text roomId attachment w = (Thrown (TypeError msg), w).
Proof.
  intros Hbad. unfold sendMessage.
  destruct (typeCheck_cases "text" "string" text)
    as [[Ht ->] | [_ (msg & _ & ->)]]; [|eauto].
  destruct (typeCheck_cases "roomId" "number" roomId)
    as [[Hr ->] | [_ (msg & _ & ->)]]; [|eauto].
  destruct Hbad; contradiction.
Qed.

(** X11. Without an attachment [sendMessage] sends one request, the POST
    of the message with its [attachment] undefined.  It resolves with the
    [message_id] of the decoded response; when the transport rejects, it
    logs the error and rejects with it. *)
Theorem sendMessage_without_attachment (text roomId : value) (w : world) :
  typeof text = "string" -> typeof roomId = "number" ->
  let req := sendMessage_request text roomId VUndefined in
  sent (trace (snd (sendMessage E text roomId VUndefined w)))
  = sent (trace w) ++ [Sent req] /\
  (forall body parsed,
     respond E (trace w) req = Resolved body ->
     JSON_parse E body = Returned parsed ->
     parsed <> VUndefined -> parsed <> VNull ->
     sendMessage E text roomId VUndefined w
     = (Returned (Resolved (member parsed "message_id")), emit [Sent req] w)) /\
  (forall e,
     respond E (trace w) req = Rejected e ->
     sendMessage E text roomId VUndefined w
     = (Returned (Rejected e),
        emit [sendMessage_warning roomId e] (emit [Sent req] w))).
Proof.
  intros Ht Hr req.
  rewrite (sendMessage_well_typed _ _ _ _ Ht Hr).
  assert (Ha : sendMessage_attachment E roomId VUndefined w = (Resolved VUndefined, w))
    by reflexivity.
  split; [|split].
  - cbn [snd]. apply (message_chain_resolved _ _ _ _ _ _ Ha).
  - intros body parsed Hres Hparse Hu Hn.
    unfold message_chain, catch_, then_, instance_request. rewrite Ha.
    fold req. rewrite Hres. cbn [of_completion cbind]. rewrite Hparse.
    cbn [cbind]. now rewrite (get_prop_defined _ _ Hu Hn).
  - intros e He.
    unfold message_chain, catch_, then_, instance_request. rewrite Ha.
    fold req. now rewrite He.
Qed.

(** X12. With a link attachment (no data attachment in the way)
    [sendMessage] sends one request, the POST of the message, whose
    attachment is [{ resource_link, type }] taken from the link. *)
Theorem sendMessage_with_link (text roomId a : value) (w : world) :
  typeof text = "string" -> typeof roomId = "number" ->
  member a "file" = VUndefined \/ member a "name" = VUndefined ->
  link_attachment a = true ->
  sent (trace (snd (sendMessage E text roomId a w)))
  = sent (trace w)
    ++ [Sent (sendMessage_request text roomId
                (VObj [("resource_link", member a "link");
                       ("type", member a "type")]))].
Proof.
  intros Ht Hr Hmissing Hl.
  rewrite (sendMessage_well_typed _ _ _ _ Ht Hr). cbn [snd].
  apply message_chain_resolved.
  unfold link_attachment in Hl.
  apply andb_prop in Hl. destruct Hl as [Hl Htype].
  apply andb_prop in Hl. destruct Hl as [Hl Hlink].
  apply andb_prop in Hl. destruct Hl as [Hlu Htu].
  apply negb_true_iff in Hlu, Htu.
  assert (Hnn : a <> VUndefined /\ a <> VNull).
  { apply (member_defined_not_nullish a "link"). now apply strict_eq_undefined_false. }
  destruct Hnn as [Hu Hn].
  assert (Hdef : negb (strict_eq a VUndefined) = true).
  { apply negb_true_iff. now apply strict_eq_undefined_false. }
  assert (Hdata : isDataAttachment a = Returned false).
  { apply (isDataAttachment_decides a). auto. }
  unfold sendMessage_attachment, then_. rewrite Hdef. cbn [and_then].
  rewrite Hdata. cbn [of_completion resolve].
  rewrite isLinkAttachment_unfold by assumption.
  rewrite Hlu, Htu. cbn [orb]. unfold typeCheck. rewrite Hlink, Htype.
  cbn [cbind of_completion resolve].
  now rewrite !get_prop_defined by assumption.
Qed.



(** X15. An attachment that carries both [file] and [name] with one of
    them of the wrong type is refused even when its [link] and [type] make
    a well-formed link attachment: the data test throws before the link is
    looked at, the promise rejects with a [TypeError] and nothing is
    sent. *)
Theorem sendMessage_bad_file_hides_link (text roomId a : value) (w : world) :
  typeof text = "string" -> typeof roomId = "number" ->
  member a "file" <> VUndefined -> member a "name" <> VUndefined ->
  typeof (member a "file") <> "object" \/ typeof (member a "name") <> "string" ->
  exists msg,
    sendMessage E text roomId a w
    = (Returned (Rejected (TypeError msg)),
       emit [sendMessage_warning roomId (TypeError msg)] w).
Proof.
  intros Ht Hr Hf Hname Hbad.
  destruct (member_defined_not_nullish a "file" Hf) as [Hu Hn].
  rewrite (sendMessage_well_typed _ _ _ _ Ht Hr).
  assert (Hdef : negb (strict_eq a VUndefined) = true).
  { apply negb_true_iff. now apply strict_eq_undefined_false. }
  assert (Hthrow : exists msg, isDataAttachment a = Thrown (TypeError msg)).
  { rewrite isDataAttachment_unfold by assumption.
    apply strict_eq_undefined_false in Hf, Hname. rewrite Hf, Hname. cbn [orb].
    destruct (typeCheck_cases "attachment.file" "object" (member a "file"))
      as [[Hfo ->] | [_ (msg & _ & ->)]]; [|cbn; eauto].
    destruct (typeCheck_cases "attachment.name" "string" (member a "name"))
      as [[Hno ->] | [_ (msg & _ & ->)]]; [|cbn; eauto].
    destruct Hbad; contradiction. }
  destruct Hthrow as [msg Hmsg]. exists msg.
  assert (Ha : sendMessage_attachment E roomId a w = (Rejected (TypeError msg), w)).
  { unfold sendMessage_attachment, then_. rewrite Hdef. cbn [and_then].
    now rewrite Hmsg. }
  now rewrite (message_chain_rejected _ _ _ _ _ _ Ha).
Qed.

End SendMessagePaths.

Lemma sendMessage_checks_arguments_witness :
  exists msg,
    CurrentUser.sendMessage MoreExamples.message_server (VNum 5) (VNum 1) VUndefined
      Examples.alice
    = (Thrown (TypeError msg), Examples.alice).
Proof.
  apply sendMessage_checks_arguments. left. discriminate.
Defined.

Lemma sendMessage_without_attachment_witness :
  CurrentUser.sendMessage MoreExamples.message_server (VStr "hello") (VNum 1) VUndefined
    Examples.alice
  = (Returned (Resolved (VNum 99)),
     emit [Sent (CurrentUserRequests.sendMessage_request (VStr "hello") (VNum 1)
                   VUndefined)] Examples.alice).
Proof.
  refine (proj1 (proj2 (sendMessage_without_attachment MoreExamples.message_server
            (VStr "hello") (VNum 1) Examples.alice _ _))
            "{message_id}" (VObj [("message_id", VNum 99)]) _ _ _ _);
    try reflexivity; discriminate.
Defined.

Lemma sendMessage_with_link_witness :
  sent (trace (snd (CurrentUser.sendMessage MoreExamples.message_server
                      (VStr "look") (VNum 1) MoreExamples.link Examples.alice)))
  = [Sent (CurrentUserRequests.sendMessage_request (VStr "look") (VNum 1)
             (VObj [("resource_link", VStr "https://example.com/cat.png");
                    ("type", VStr "image")]))].
Proof.
  apply (sendMessage_with_link MoreExamples.message_server (VStr "look") (VNum 1)
           MoreExamples.link Examples.alice); try reflexivity.
  left. reflexivity.
Defined.



Lemma sendMessage_bad_file_hides_link_witness :
  Spec.link_attachment MoreExamples.confused = true /\
  exists msg,
    CurrentUser.sendMessage MoreExamples.message_server (VStr "look") (VNum 1)
      MoreExamples.confused Examples.alice
    = (Returned (Rejected (TypeError msg)),
       emit [CurrentUserRequests.sendMessage_warning (VNum 1) (TypeError msg)]
         Examples.alice).
Proof.
  split; [reflexivity|].
  apply (sendMessage_bad_file_hides_link MoreExamples.message_server (VStr "look")
           (VNum 1) MoreExamples.confused Examples.alice);
    try reflexivity; try discriminate.
  left. discriminate.
Defined.

(* --------------------------------------------------------------------- *)
(** ** current-user.js: cursor and room requests *)
(* --------------------------------------------------------------------- *)

Section RequestFacts.

Import CurrentUser CurrentUserRequests.

Variable E : env.
Variable R : room_store.

(** One request whose answer is dropped: what [setReadCursor], [updateRoom]
    and [deleteRoom] do after their checks. *)
Lemma request_then_nothing (msg : string) (req : request) (w : world) :
  warn_and_rethrow msg
    (then_ (instance_request E req) (fun _ => resolve VUndefined)) w
  = match respond E (trace w) req with
    | Resolved _ => (Resolved VUndefined, emit [Sent req] w)
    | Rejected e => (Rejected e, log Warn [LogStr msg; LogErr e] (emit [Sent req] w))
    | Pending => (Pending, emit [Sent req] w)
    end.
Proof.
  unfold warn_and_rethrow, catch_, then_, instance_request.
  destruct (respond E (trace w) req); reflexivity.
Qed.

(** One request followed by a call on the room store: what [leaveRoom],
    [addUserToRoom] and [removeUserFromRoom] do after their checks. *)
Lemma request_then_store (msg : string) (req : request) (after : promise value)
  (w : world) :
  warn_and_rethrow msg (then_ (instance_request E req) (fun _ => after)) w
  = match respond E (trace w) req with
    | Resolved _ =>
        match after (emit [Sent req] w) with
        | (Rejected e, w') => (Rejected e, log Warn [LogStr msg; LogErr e] w')
        | r => r
        end
    | Rejected e => (Rejected e, log Warn [LogStr msg; LogErr e] (emit [Sent req] w))
    | Pending => (Pending, emit [Sent req] w)
    end.
Proof.
  unfold warn_and_rethrow, catch_, then_, instance_request.
  destruct (respond E (trace w) req); reflexivity.
Qed.

(** X16. [setReadCursor] throws a [TypeError] at once, sending nothing,
    unless [roomId] and [position] are numbers.  Otherwise it sends one PUT
    with [{ position }]; it resolves with [undefined] whatever the response
    holds, and a rejection of the transport is logged and passed on. *)
Theorem setReadCursor_behaviour (roomId position : value) (w : world) :
  let req := setReadCursor_request E roomId position w in
  (typeof roomId <> "number" \/ typeof position <> "number" ->
   exists msg, setReadCursor E roomId position w = (Thrown (TypeError msg), w)) /\
  (typeof roomId = "number" -> typeof position = "number" ->
   (forall body, respond E (trace w) req = Resolved body ->
      setReadCursor E roomId position w
      = (Returned (Resolved VUndefined), emit [Sent req] w)) /\
   (forall e, respond E (trace w) req = Rejected e ->
      setReadCursor E roomId position w
      = (Returned (Rejected e),
         log Warn [LogStr "error setting cursor:"; LogErr e] (emit [Sent req] w)))).
Proof.
  intros req. unfold setReadCursor, after_checks. split.
  - intros Hbad.
    destruct (typeCheck_cases "roomId" "number" roomId)
      as [[Hr ->] | [_ (msg & _ & ->)]]; [|cbn; eauto].
    destruct (typeCheck_cases "position" "number" position)
      as [[Hp ->] | [_ (msg & _ & ->)]]; [|cbn; eauto].
    destruct Hbad; contradiction.
  - intros Hr Hp.
    rewrite (typeCheck_ok _ _ _ Hr), (typeCheck_ok _ _ _ Hp). cbn [cbind].
    rewrite request_then_nothing. fold req.
    split; [intros body -> | intros e ->]; reflexivity.
Qed.

(** X17. [updateRoom] checks the type of [name] only when [name] is truthy:
    a falsy [name] of any type ([undefined], [null], [0], [false], the
    empty string) is sent as it is.  A truthy [name] that is not a string
    throws a [TypeError] before anything is sent.  The [private] flag of the
    request is always a boolean, the truthiness of what was given. *)
Theorem updateRoom_checks_truthy_name (roomId name private : value) (w : world) :
  typeof roomId = "number" ->
  (truthy name = false \/ typeof name = "string" ->
   sent (trace (snd (updateRoom E roomId name private w)))
   = sent (trace w)
     ++ [Sent {| req_instance := ApiInstance;
                 req_method := "PUT";
                 req_path := "/rooms/" +:+ to_string roomId;
                 req_json := Some (VObj [("name", name);
                                         ("private", VBool (truthy private))]);
                 req_body := None |}]) /\
  (truthy name = true -> typeof name <> "string" ->
   exists msg, updateRoom E roomId name private w = (Thrown (TypeError msg), w)).
Proof.
  intros Hr. unfold updateRoom, after_checks, check_if_given.
  rewrite (typeCheck_ok _ _ _ Hr). cbn [cbind]. split.
  - intros Hname.
    assert (Hcheck : (if truthy name then typeCheck "name" "string" name
                      else Returned tt) = Returned tt).
    { destruct Hname as [-> | Hs]; [reflexivity|].
      destruct (truthy name); [now apply typeCheck_ok | reflexivity]. }
    rewrite Hcheck. cbn [snd]. rewrite request_then_nothing.
    fold (updateRoom_request roomId name private).
    destruct (respond E _ _); cbn [snd];
      rewrite ?sent_emit_log; unfold sent, emit; cbn [trace];
      now rewrite filter_app.
  - intros -> Hs.
    destruct (typeCheck_cases "name" "string" name)
      as [[Hok _] | [_ (msg & _ & ->)]]; [contradiction | eauto].
Qed.

(** X18. [deleteRoom] throws a [TypeError] at once unless [roomId] is a
    number; otherwise it sends one DELETE of the room, resolves with
    [undefined] whatever the response holds, and logs and passes on a
    rejection of the transport. *)
Theorem deleteRoom_behaviour (roomId : value) (w : world) :
  let req := deleteRoom_request roomId in
  (typeof roomId <> "number" ->
   exists msg, deleteRoom E roomId w = (Thrown (TypeError msg), w)) /\
  (typeof roomId = "number" ->
   (forall body, respond E (trace w) req = Resolved body ->
      deleteRoom E roomId w = (Returned (Resolved VUndefined), emit [Sent req] w)) /\
   (forall e, respond E (trace w) req = Rejected e ->
      deleteRoom E roomId w
      = (Returned (Rejected e),
         log Warn [LogStr "error deleting room:"; LogErr e] (emit [Sent req] w)))).
Proof.
  intros req. unfold deleteRoom, after_checks. split.
  - intros Hbad.
    destruct (typeCheck_cases "roomId" "number" roomId)
      as [[Hr _] | [_ (msg & _ & ->)]]; [contradiction | eauto].
  - intros Hr. rewrite (typeCheck_ok _ _ _ Hr).
    rewrite request_then_nothing. fold req.
    split; [intros body -> | intros e ->]; reflexivity.
Qed.


(** X20. Joining a room the user is not a member of sends the join
    request.  The room store is written only with a parsed answer: when the
    transport rejects, or when the response decodes to [null], [joinRoom]
    logs the error and rejects without calling the room store; when the
    response decodes to an object, the room store's [set] is called with
    the parsed room under the room's [id]. *)
Theorem joinRoom_sets_parsed_room (roomId : value) (w : world) :
  typeof roomId = "number" ->
  isMemberOf roomId w = false ->
  let req := joinRoom_request E roomId w in
  let msg := "error joining room " +:+ to_string roomId +:+ ":" in
  let w1 := emit [Sent req] w in
  (forall e, respond E (trace w) req = Rejected e ->
     joinRoom E R roomId w
     = (Returned (Rejected e), log Warn [LogStr msg; LogErr e] w1)) /\
  (forall body, respond E (trace w) req = Resolved body ->
     JSON_parse E body = Returned VNull ->
     exists m,
       joinRoom E R roomId w
       = (Returned (Rejected (TypeError m)),
          log Warn [LogStr msg; LogErr (TypeError m)] w1)) /\
  (forall body fs room, respond E (trace w) req = Resolved body ->
     JSON_parse E body = Returned (VObj fs) ->
     Parsers.parseBasicRoom (VObj fs) = Returned room ->
     joinRoom E R roomId w
     = match roomStore_set R (field_or_undefined "id" fs) room w1 with
       | (Rejected e, w') => (Returned (Rejected e), log Warn [LogStr msg; LogErr e] w')
       | (o, w') => (Returned o, w')
       end).
Proof.
  intros Hr Hm req msg w1. unfold joinRoom, after_checks.
  rewrite (typeCheck_ok _ _ _ Hr), Hm.
  set (chain := warn_and_rethrow _ _).
  assert (Hchain : chain w =
    match respond E (trace w) req with
    | Resolved body =>
        match (let! parsed := JSON_parse E body in
               let! basicRoom := Parsers.parseBasicRoom parsed in
               let! basicRoom_id := get_prop basicRoom "id" in
               Returned (basicRoom_id, basicRoom)) with
        | Returned room =>
            match roomStore_set R (fst room) (snd room) w1 with
            | (Rejected e, w') => (Rejected e, log Warn [LogStr msg; LogErr e] w')
            | r => r
            end
        | Thrown e => (Rejected e, log Warn [LogStr msg; LogErr e] w1)
        end
    | Rejected e => (Rejected e, log Warn [LogStr msg; LogErr e] w1)
    | Pending => (Pending, w1)
    end).
  { subst chain. unfold warn_and_rethrow, catch_, then_, instance_request.
    fold req. fold msg. fold w1.
    destruct (respond E (trace w) req) as [body|e|]; try reflexivity.
    destruct (let! parsed := JSON_parse E body in _) as [room|e]; reflexivity. }
  rewrite Hchain. clear Hchain.
  split; [|split].
  - intros e ->. reflexivity.
  - intros body -> Hparse. rewrite Hparse. cbn. eauto.
  - intros body fs room -> Hparse Hroom. rewrite Hparse.
    cbn [cbind]. rewrite Hroom. cbn [cbind].
    injection Hroom as <-. cbn [get_prop member field_or_undefined field String.eqb
                                  Ascii.eqb Bool.eqb cbind fst snd].
    fold (field_or_undefined "id" fs).
    destruct (roomStore_set R _ _ w1) as [[v|e|] w']; reflexivity.
Qed.

(** X21. [leaveRoom] removes the room from the room store only after the
    server has accepted: when the transport rejects, the error is logged
    and passed on and the room store's [pop] is not called; when it
    resolves, [pop] is called for the room, after the request.  A [roomId]
    that is not a number throws before anything is sent. *)
Theorem leaveRoom_pops_after_server (roomId : value) (w : world) :
  let req := leaveRoom_request E roomId w in
  let msg := "error leaving room " +:+ to_string roomId +:+ ":" in
  (typeof roomId <> "number" ->
   exists m, leaveRoom E R roomId w = (Thrown (TypeError m), w)) /\
  (typeof roomId = "number" ->
   (forall e, respond E (trace w) req = Rejected e ->
      leaveRoom E R roomId w
      = (Returned (Rejected e), log Warn [LogStr msg; LogErr e] (emit [Sent req] w))) /\
   (forall body, respond E (trace w) req = Resolved body ->
      leaveRoom E R roomId w
      = logged msg (roomStore_pop R roomId (emit [Sent req] w)))).
Proof.
  intros req msg. unfold leaveRoom, after_checks. split.
  - intros Hbad.
    destruct (typeCheck_cases "roomId" "number" roomId)
      as [[Hr _] | [_ (m & _ & ->)]]; [contradiction | eauto].
  - intros Hr. rewrite (typeCheck_ok _ _ _ Hr).
    rewrite request_then_store. fold req. fold msg.
    split; [intros e -> | intros body ->]; [reflexivity|].
    unfold logged.
    destruct (roomStore_pop R roomId (emit [Sent req] w)) as [[v|e|] w'];
      reflexivity.
Qed.

(** X22. [addUserToRoom] and [removeUserFromRoom] send one PUT that names
    the user in [user_ids] and touch the room store only after the server
    has accepted: a rejection of the transport is logged and passed on
    without a call of the room store; otherwise the room store's method is
    called with the room and the user, after the request. *)
Theorem membership_changes_after_server (userId roomId : value) (w : world) :
  typeof userId = "string" -> typeof roomId = "number" ->
  let add := addUserToRoom_request userId roomId in
  let remove := removeUserFromRoom_request userId roomId in
  let add_msg := "error adding user " +:+ to_string userId +:+ " to room "
                 +:+ to_string roomId +:+ ":" in
  let remove_msg := "error removing user " +:+ to_string userId +:+ " from room "
                    +:+ to_string roomId +:+ ":" in
  req_json add = Some (VObj [("user_ids", VArr [userId])]) /\
  req_json remove = Some (VObj [("user_ids", VArr [userId])]) /\
  (forall e, respond E (trace w) add = Rejected e ->
     addUserToRoom E R userId roomId w
     = (Returned (Rejected e), log Warn [LogStr add_msg; LogErr e] (emit [Sent add] w))) /\
  (forall body, respond E (trace w) add = Resolved body ->
     addUserToRoom E R userId roomId w
     = logged add_msg (roomStore_addUserToRoom R roomId userId (emit [Sent add] w))) /\
  (forall e, respond E (trace w) remove = Rejected e ->
     removeUserFromRoom E R userId roomId w
     = (Returned (Rejected e),
        log Warn [LogStr remove_msg; LogErr e] (emit [Sent remove] w))) /\
  (forall body, respond E (trace w) remove = Resolved body ->
     removeUserFromRoom E R userId roomId w
     = logged remove_msg
         (roomStore_removeUserFromRoom R roomId userId (emit [Sent remove] w))).
Proof.
  intros Hu Hr add remove add_msg remove_msg.
  split; [reflexivity|]. split; [reflexivity|].
  unfold addUserToRoom, removeUserFromRoom, after_checks.
  rewrite (typeCheck_ok _ _ _ Hu), (typeCheck_ok _ _ _ Hr). cbn [cbind].
  rewrite !request_then_store.
  fold add. fold remove. fold add_msg. fold remove_msg.
  split; [intros e -> | split; [intros body -> | split; [intros e -> | intros body ->]]];
    try reflexivity; unfold logged.
  - destruct (roomStore_addUserToRoom R roomId userId (emit [Sent add] w))
      as [[v|e|] w']; reflexivity.
  - destruct (roomStore_removeUserFromRoom R roomId userId (emit [Sent remove] w))
      as [[v|e|] w']; reflexivity.
Qed.

End RequestFacts.

Lemma setReadCursor_behaviour_witness :
  CurrentUserRequests.setReadCursor MoreExamples.message_server (VNum 1) (VNum 42)
    Examples.alice
  = (Returned (Resolved VUndefined),
     emit [Sent (CurrentUserRequests.setReadCursor_request MoreExamples.message_server
                   (VNum 1) (VNum 42) Examples.alice)] Examples.alice)
  /\
  exists msg,
    CurrentUserRequests.setReadCursor MoreExamples.message_server (VNum 1) (VStr "42")
      Examples.alice
    = (Thrown (TypeError msg), Examples.alice).
Proof.
  split.
  - refine (proj1 (proj2 (setReadCursor_behaviour MoreExamples.message_server
              (VNum 1) (VNum 42) Examples.alice) _ _) "{message_id}" _);
      reflexivity.
  - apply (proj1 (setReadCursor_behaviour MoreExamples.message_server
              (VNum 1) (VStr "42") Examples.alice)).
    right. discriminate.
Defined.

Lemma updateRoom_checks_truthy_name_witness :
  sent (trace (snd (CurrentUserRequests.updateRoom MoreExamples.message_server
                      (VNum 1) (VNum 0) (VStr "yes") Examples.alice)))
  = [Sent {| req_instance := ApiInstance;
             req_method := "PUT";
             req_path := "/rooms/1";
             req_json := Some (VObj [("name", VNum 0); ("private", VBool true)]);
             req_body := None |}]
  /\
  exists msg,
    CurrentUserRequests.updateRoom MoreExamples.message_server (VNum 1) (VNum 7)
      (VStr "yes") Examples.alice
    = (Thrown (TypeError msg), Examples.alice).
Proof.
  split.
  - refine (proj1 (updateRoom_checks_truthy_name MoreExamples.message_server
              (VNum 1) (VNum 0) (VStr "yes") Examples.alice _) _).
    + reflexivity.
    + left. reflexivity.
  - refine (proj2 (updateRoom_checks_truthy_name MoreExamples.message_server
              (VNum 1) (VNum 7) (VStr "yes") Examples.alice _) _ _).
    + reflexivity.
    + reflexivity.
    + discriminate.
Defined.

Lemma deleteRoom_behaviour_witness :
  CurrentUserRequests.deleteRoom MoreExamples.down_server (VNum 1) Examples.alice
  = (Returned (Rejected MoreExamples.outage),
     log Warn [LogStr "error deleting room:"; LogErr MoreExamples.outage]
       (emit [Sent (CurrentUserRequests.deleteRoom_request (VNum 1))] Examples.alice)).
Proof.
  refine (proj2 (proj2 (deleteRoom_behaviour MoreExamples.down_server (VNum 1)
            Examples.alice) _) MoreExamples.outage _); reflexivity.
Defined.


Lemma joinRoom_sets_parsed_room_witness :
  CurrentUserRequests.joinRoom MoreExamples.down_server MoreExamples.idle_rooms
    (VNum 2) Examples.alice
  = (Returned (Rejected MoreExamples.outage),
     log Warn [LogStr "error joining room 2:"; LogErr MoreExamples.outage]
       (emit [Sent (CurrentUserRequests.joinRoom_request MoreExamples.down_server
                      (VNum 2) Examples.alice)] Examples.alice)).
Proof.
  refine (proj1 (joinRoom_sets_parsed_room MoreExamples.down_server
            MoreExamples.idle_rooms (VNum 2) Examples.alice _ _)
            MoreExamples.outage _).
  - reflexivity.
  - vm_compute. reflexivity.
  - reflexivity.
Defined.

Lemma leaveRoom_pops_after_server_witness :
  CurrentUserRequests.leaveRoom MoreExamples.down_server MoreExamples.idle_rooms
    (VNum 1) Examples.alice
  = (Returned (Rejected MoreExamples.outage),
     log Warn [LogStr "error leaving room 1:"; LogErr MoreExamples.outage]
       (emit [Sent (CurrentUserRequests.leaveRoom_request MoreExamples.down_server
                      (VNum 1) Examples.alice)] Examples.alice)).
Proof.
  refine (proj1 (proj2 (leaveRoom_pops_after_server MoreExamples.down_server
            MoreExamples.idle_rooms (VNum 1) Examples.alice) _)
            MoreExamples.outage _); reflexivity.
Defined.

Lemma membership_changes_after_server_witness :
  CurrentUserRequests.addUserToRoom MoreExamples.down_server MoreExamples.idle_rooms
    (VStr "bob") (VNum 1) Examples.alice
  = (Returned (Rejected MoreExamples.outage),
     log Warn [LogStr "error adding user bob to room 1:"; LogErr MoreExamples.outage]
       (emit [Sent (CurrentUserRequests.addUserToRoom_request (VStr "bob") (VNum 1))]
          Examples.alice)).
Proof.
  refine (proj1 (proj2 (proj2 (membership_changes_after_server MoreExamples.down_server
            MoreExamples.idle_rooms (VStr "bob") (VNum 1) Examples.alice _ _)))
            MoreExamples.outage _); reflexivity.
Defined.

(* --------------------------------------------------------------------- *)
(** ** current-user.js: members, hooks and the users to fetch *)
(* --------------------------------------------------------------------- *)

Section MemberFacts.

Import CurrentUser.

Lemma equals_num_r (v : value) (n : Z) : equals v (VNum n) = true <-> v = VNum n.
Proof.
  destruct v; cbn; split; try discriminate; try congruence.
  - intros H. apply Z.eqb_eq in H. now subst.
  - intros [= ->]. apply Z.eqb_refl.
Qed.

Lemma room_of_store (w : world) (room : list (string * value)) :
  In room (rooms w) <-> exists k, roomStore w !! k = Some room.
Proof.
  unfold rooms, roomStore_snapshot. rewrite <- list_elem_of_In, list_elem_of_fmap.
  split.
  - intros ([k r] & -> & Hkr). apply elem_of_map_to_list in Hkr. eauto.
  - intros (k & Hk). exists (k, room). split; [reflexivity|].
    now apply elem_of_map_to_list.
Qed.

(** X23. [isMemberOf] compares ids by value and type: for a number it
    holds exactly when some room of the room store has that number as its
    [id], so a room whose id is the string ["1"] does not make the user a
    member of room [1]; with an empty room store nobody is a member of
    anything. *)
Theorem isMemberOf_number (n : Z) (w : world) :
  (isMemberOf (VNum n) w = true <->
   exists (k : string) (room : list (string * value)),
     roomStore w !! k = Some room /\ field_or_undefined "id" room = VNum n) /\
  (roomStore w = ∅ -> forall roomId, isMemberOf roomId w = false).
Proof.
  split.
  - unfold isMemberOf, contains. rewrite existsb_exists. split.
    + intros (x & Hin & Heq). apply in_map_iff in Hin.
      destruct Hin as (room & <- & Hroom).
      apply room_of_store in Hroom. destruct Hroom as [k Hk].
      apply equals_num_r in Heq. eauto.
    + intros (k & room & Hk & Hid). exists (VNum n). split.
      * apply in_map_iff. exists room. split; [exact Hid|].
        apply room_of_store. eauto.
      * cbn. apply Z.eqb_refl.
  - intros Hempty roomId. unfold isMemberOf, rooms, roomStore_snapshot.
    rewrite Hempty, map_to_list_empty. reflexivity.
Qed.

(** X24. Both cursor hooks drop every cursor whose [type] is not the
    number [0], and do nothing at all, not even read the cursor, when the
    caller gave no [onNewReadCursor]: the world is left as it was. *)
Theorem cursor_hooks_drop_other_types (hooks : hooks) (cursor : value) (w : world) :
  (onNewReadCursor hooks = None ->
   subscribeToRoom_newCursor hooks cursor w = (Returned tt, w) /\
   establishCursorSubscription_newCursor hooks cursor w = (Returned tt, w)) /\
  (cursor <> VUndefined -> cursor <> VNull ->
   member cursor "type" <> VNum 0 ->
   subscribeToRoom_newCursor hooks cursor w = (Returned tt, w) /\
   establishCursorSubscription_newCursor hooks cursor w = (Returned tt, w)).
Proof.
  unfold subscribeToRoom_newCursor, establishCursorSubscription_newCursor. split.
  - intros ->. auto.
  - intros Hu Hn Htype.
    destruct (onNewReadCursor hooks); [|auto].
    rewrite !get_prop_defined by assumption.
    assert (Ht : strict_eq (member cursor "type") (VNum 0) = false).
    { destruct (strict_eq _ _) eqn:Et; [|reflexivity].
      apply strict_eq_num_r in Et. contradiction. }
    rewrite Ht. auto.
Qed.

Lemma uniq_from_spec (seen l : list value) :
  (forall x, In x l ->
     (exists y, In y seen /\ equals y x = true) \/
     (exists y, In y (uniq_from seen l) /\ (y = x \/ equals y x = true))) /\
  (forall y x, In y seen -> In x (uniq_from seen l) -> equals y x = false) /\
  (forall l1 y l2 x l3,
     uniq_from seen l = l1 ++ y :: l2 ++ x :: l3 -> equals y x = false) /\
  (forall x, In x (uniq_from seen l) -> In x l).
Proof.
  revert seen. induction l as [|a l IH]; intros seen.
  { cbn. repeat split; try contradiction.
    intros l1 y l2 x l3 H. destruct l1; discriminate. }
  cbn [uniq_from].
  destruct (contains a seen) eqn:Ea; unfold contains in Ea.
  - destruct (IH seen) as (Hcov & Hseen & Hpair & Hsub).
    repeat split; auto.
    + intros x [<- | Hx]; [|auto].
      left. apply existsb_exists in Ea. exact Ea.
    + intros x Hx. right. auto.
  - destruct (IH (a :: seen)) as (Hcov & Hseen & Hpair & Hsub).
    assert (Hfresh : forall y, In y seen -> equals y a = false).
    { intros y Hy. destruct (equals y a) eqn:Ey; [|reflexivity].
      assert (existsb (fun y => equals y a) seen = true)
        by (apply existsb_exists; eauto).
      congruence. }
    repeat split.
    + intros x [<- | Hx].
      * right. exists a. split; [now left | now left].
      * destruct (Hcov x Hx) as [(y & [<- | Hy] & Heq) | (y & Hy & Heq)].
        -- right. exists a. split; [now left | now right].
        -- left. eauto.
        -- right. exists y. split; [now right | exact Heq].
    + intros y x Hy [<- | Hx]; [now apply Hfresh|].
      apply (Hseen y x); [now right | exact Hx].
    + intros l1 y l2 x l3 Heq. destruct l1 as [|b l1]; cbn in Heq.
      * injection Heq as <- Heq. apply (Hseen a x); [now left|].
        rewrite Heq. apply in_or_app. right. now left.
      * injection Heq as <- Heq. now apply (Hpair l1 y l2 x l3).
    + intros x [<- | Hx]; [now left | right; auto].
Qed.

(** X25. The user ids [initializeUserStore] asks [fetchMissingUsers] for
    cover every member of every cached room (each id in a room's [userIds]
    array is asked for, itself or an id equal to it) and hold no two ids
    that are equal: every user is asked for once. *)
Theorem initial_user_ids_cover_once (w : world) :
  let ids := uniq (chain_userIds (rooms w)) in
  (forall k room xs x,
     roomStore w !! k = Some room ->
     field_or_undefined "userIds" room = VArr xs ->
     In x xs ->
     exists y, In y ids /\ (y = x \/ equals y x = true)) /\
  (forall l1 y l2 x l3, ids = l1 ++ y :: l2 ++ x :: l3 -> equals y x = false).
Proof.
  intros ids. subst ids. unfold uniq.
  destruct (uniq_from_spec [] (chain_userIds (rooms w))) as (Hcov & _ & Hpair & _).
  split; [|exact Hpair].
  intros k room xs x Hk Hids Hx.
  assert (Hin : In x (chain_userIds (rooms w))).
  { unfold chain_userIds. apply in_flat_map. exists room. split.
    - apply room_of_store. eauto.
    - now rewrite Hids. }
  destruct (Hcov x Hin) as [(y & [] & _) | Hy]. exact Hy.
Qed.

End MemberFacts.

Lemma isMemberOf_number_witness :
  CurrentUser.isMemberOf (VNum 1) Examples.alice = true /\
  CurrentUser.isMemberOf (VStr "1") MoreExamples.alice_connecting = false.
Proof.
  split.
  - apply (proj1 (isMemberOf_number 1 Examples.alice)).
    exists "1", Examples.room1. split; reflexivity.
  - apply (proj2 (isMemberOf_number 1 MoreExamples.alice_connecting)). reflexivity.
Defined.

Lemma cursor_hooks_drop_other_types_witness :
  CurrentUser.subscribeToRoom_newCursor Examples.listening
    (VCursor (VObj [("type", VNum 1); ("userId", VStr "bob"); ("roomId", VNum 1)]))
    Examples.alice
  = (Returned tt, Examples.alice).
Proof.
  refine (proj1 (proj2 (cursor_hooks_drop_other_types Examples.listening
            (VCursor (VObj [("type", VNum 1); ("userId", VStr "bob");
                            ("roomId", VNum 1)])) Examples.alice) _ _ _));
    discriminate.
Defined.

Lemma initial_user_ids_cover_once_witness :
  exists y,
    In y (CurrentUser.uniq (CurrentUser.chain_userIds (CurrentUser.rooms Examples.alice)))
    /\ (y = VStr "bob" \/ equals y (VStr "bob") = true).
Proof.
  refine (proj1 (initial_user_ids_cover_once Examples.alice)
            "1" Examples.room1 [VStr "alice"; VStr "bob"] (VStr "bob") _ _ _).
  - reflexivity.
  - reflexivity.
  - right. left. reflexivity.
Defined.

(* --------------------------------------------------------------------- *)
(** ** current-user.js: more on attachments and on reading cursors *)
(* --------------------------------------------------------------------- *)

Section MoreCurrentUserFacts.

Import CurrentUser CurrentUserRequests.

(** X26. [isLinkAttachment] returns [true] exactly for an attachment whose
    [link] and [type] are both present and both strings; it returns [false]
    exactly when one of the two is missing; in the cases left, both present
    and one not a string, and for a [null] attachment, it throws a
    [TypeError]. *)
Theorem isLinkAttachment_decides (a : value) :
  (isLinkAttachment a = Returned true <-> link_attachment a = true) /\
  (isLinkAttachment a = Returned false <->
   a <> VUndefined /\ a <> VNull /\
   (member a "link" = VUndefined \/ member a "type" = VUndefined)) /\
  (isLinkAttachment a = Returned true \/
   isLinkAttachment a = Returned false \/
   exists msg, isLinkAttachment a = Thrown (TypeError msg)).
Proof.
  destruct (null_or_not a) as [-> | Hnull].
  { cbn. repeat split; try discriminate; try tauto; eauto. }
  assert (Hcases : a = VUndefined \/ a <> VUndefined)
    by (destruct a; auto; right; discriminate).
  destruct Hcases as [-> | Hundef].
  { cbn. repeat split; try discriminate; try tauto; eauto. }
  rewrite isLinkAttachment_unfold by assumption.
  unfold link_attachment, typeCheck.
  destruct (strict_eq (member a "link") VUndefined) eqn:El;
    destruct (strict_eq (member a "type") VUndefined) eqn:Et;
    cbn [orb negb andb];
    try apply strict_eq_undefined_r in El;
    try apply strict_eq_undefined_r in Et.
  - repeat split; try discriminate; auto.
  - repeat split; try discriminate; auto.
  - repeat split; try discriminate; auto.
  - apply strict_eq_undefined_false in El, Et.
    destruct (String.eqb (typeof (member a "link")) "string");
      destruct (String.eqb (typeof (member a "type")) "string");
      cbn [cbind andb]; repeat split; try discriminate; auto;
      try (intros (_ & _ & [H | H]); contradiction); eauto.
Qed.

(** X27. [readCursor] only reads: whatever its arguments, it sends
    nothing and leaves the stores, the room subscriptions and the id as
    they were; the trace grows by at most the one error it logs. *)
Theorem readCursor_only_reads (roomId userId : value) (w : world) :
  let w' := snd (readCursor roomId userId w) in
  sent (trace w') = sent (trace w) /\
  cursorStore w' = cursorStore w /\
  userStore w' = userStore w /\
  roomStore w' = roomStore w /\
  roomSubscriptions w' = roomSubscriptions w /\
  (trace w' = trace w \/
   trace w' = trace w ++ [Logged Error [LogErr (readCursor_error roomId)]]).
Proof.
  unfold readCursor.
  destruct (typeCheck "roomId" "number" roomId); cbn [snd]; [|auto 10].
  destruct (typeCheck "userId" "string" _); cbn [snd]; [|auto 10].
  destruct (negb _ && negb _); cbn [snd]; [|auto 10].
  rewrite sent_emit_log. cbn. auto 10.
Qed.

End MoreCurrentUserFacts.
